(** * sitekit/web/assets.go: the asset registry and its template cache

    A shallow embedding of [src/sitekit/web/assets.go].  The registry is
    an explicit state record threaded through every operation; [*File]
    pointers are indices into a store of [File] records, so that the
    aliasing between [entries] and [byChecksum] is kept.  The recursion
    of [Get] through the preprocessors is bounded by a fuel argument.

    The lock of the registry is not modelled: a call runs from its
    first statement to its last.  [Get] is cut in two where it matters,
    between the entry of the file in [byChecksum] and the assignment of
    its content, so that the state in between can be looked at.

    The standard library is modelled where the registry depends on what
    it computes (strings, paths, the two regular expressions, hex) and
    is a parameter where it does not (SHA-1, gzip, MIME types, the
    template engine, the clock). *)

From stdpp Require Import gmap strings list fin_maps.
From Stdlib Require Import ZArith Ascii String Lia.

Open Scope string_scope.
Open Scope Z_scope.

(** ** Go strings and byte slices

    A Go [string] is a sequence of bytes: a Rocq [string] (of 8-bit
    [ascii]).  A [[]byte] is either the nil slice or a sequence of
    bytes; the source tests [file.Content == nil], so the difference is
    kept: [None] is the nil slice. *)

Definition slice := option string.

Definition bytes_of (b : slice) : string := default "" b.

(** [s[n:]] for [n <= len(s)]. *)
Fixpoint str_drop (n : nat) (s : string) : string :=
  match n, s with
  | O, _ => s
  | S n', String _ s' => str_drop n' s'
  | S _, EmptyString => EmptyString
  end.

(** [s[:n]]. *)
Fixpoint str_take (n : nat) (s : string) : string :=
  match n, s with
  | O, _ => EmptyString
  | S n', String c s' => String c (str_take n' s')
  | S _, EmptyString => EmptyString
  end.

(** [s[0]]: [None] is the run-time panic "index out of range". *)
Definition str_index0 (s : string) : option ascii :=
  match s with
  | EmptyString => None
  | String c _ => Some c
  end.

(** [len(s)] as a Go [int]. *)
Definition len (s : string) : Z := Z.of_nat (String.length s).

(** [s[lo:hi]]: [None] is the run-time panic "slice bounds out of range". *)
Definition str_slice (lo hi : Z) (s : string) : option string :=
  if decide (0 ≤ lo ∧ lo ≤ hi ∧ hi ≤ len s)
  then Some (str_take (Z.to_nat (hi - lo)) (str_drop (Z.to_nat lo) s))
  else None.

(** [strings.HasPrefix]. *)
Definition HasPrefix (s p : string) : bool := String.prefix p s.

(** [strings.Contains]. *)
Fixpoint Contains (s sub : string) : bool :=
  String.prefix sub s ||
  match s with
  | EmptyString => false
  | String _ s' => Contains s' sub
  end.

(** [strings.Join]. *)
Fixpoint Join (elems : list string) (sep : string) : string :=
  match elems with
  | [] => ""
  | [x] => x
  | x :: rest => x +:+ sep +:+ Join rest sep
  end.

Definition slash : ascii := "/"%char.

(** White space as [unicode.IsSpace] sees it.  In one byte: tab, line
    feed, vertical tab, form feed, carriage return and space. *)
Definition is_space (c : ascii) : bool :=
  let n := nat_of_ascii c in
  ((9 <=? n) && (n <=? 13) || (n =? 32))%nat.

Definition byte_is (c : ascii) (n : nat) : bool := (nat_of_ascii c =? n)%nat.

(** In two bytes of UTF-8: U+0085 and U+00A0. *)
Definition is_space2 (c1 c2 : ascii) : bool :=
  byte_is c1 194 && (byte_is c2 133 || byte_is c2 160).

(** In three bytes: U+1680, U+2000 to U+200A, U+2028, U+2029, U+202F,
    U+205F and U+3000. *)
Definition is_space3 (c1 c2 c3 : ascii) : bool :=
  let n3 := nat_of_ascii c3 in
  byte_is c1 225 && byte_is c2 154 && byte_is c3 128
  || byte_is c1 226 && byte_is c2 128
     && ((128 <=? n3) && (n3 <=? 138) || (n3 =? 168) || (n3 =? 169)
         || (n3 =? 175))%nat
  || byte_is c1 226 && byte_is c2 129 && byte_is c3 159
  || byte_is c1 227 && byte_is c2 128 && byte_is c3 128.

(** The string without its leading white space.  With [backwards] the
    string is read from its end, so the bytes of a rune come last
    first. *)
Fixpoint trim_spaces (backwards : bool) (s : string) : string :=
  match s with
  | EmptyString => EmptyString
  | String c1 s1 =>
      if is_space c1 then trim_spaces backwards s1
      else
        match s1 with
        | EmptyString => s
        | String c2 s2 =>
            if (if backwards then is_space2 c2 c1 else is_space2 c1 c2)
            then trim_spaces backwards s2
            else
              match s2 with
              | EmptyString => s
              | String c3 s3 =>
                  if (if backwards then is_space3 c3 c2 c1
                      else is_space3 c1 c2 c3)
                  then trim_spaces backwards s3
                  else s
              end
        end
  end.

(** [strings.TrimSpace]. *)
Definition TrimSpace (s : string) : string :=
  String.rev (trim_spaces true (String.rev (trim_spaces false s))).

(** [encoding/hex.EncodeToString]. *)
Definition hex_digit (n : nat) : ascii :=
  if (n <? 10)%nat then ascii_of_nat (48 + n) else ascii_of_nat (87 + n).

Fixpoint EncodeToString (b : string) : string :=
  match b with
  | EmptyString => EmptyString
  | String c b' =>
      let n := nat_of_ascii c in
      String (hex_digit (n / 16)) (String (hex_digit (n mod 16)) (EncodeToString b'))
  end.

(** ** path/filepath, with [/] as the separator *)

(** The elements of a path between separators. *)
Fixpoint split_slash (s : string) : list string :=
  match s with
  | EmptyString => [EmptyString]
  | String c s' =>
      if Ascii.eqb c slash then EmptyString :: split_slash s'
      else match split_slash s' with
           | [] => [String c EmptyString]
           | x :: xs => String c x :: xs
           end
  end.

(** One element of [filepath.Clean]: the stack holds the elements kept
    so far, innermost first. *)
Definition clean_step (rooted : bool) (stack : list string) (elem : string)
  : list string :=
  if decide (elem = "" ∨ elem = ".") then stack
  else if decide (elem = "..") then
    match stack with
    | top :: below =>
        if decide (top = "..") then elem :: stack else below
    | [] => if rooted then [] else [elem]
    end
  else elem :: stack.

(** [filepath.Clean]. *)
Definition Clean (p : string) : string :=
  let rooted := match str_index0 p with
                | Some c => Ascii.eqb c slash
                | None => false
                end in
  let stack := fold_left (clean_step rooted) (split_slash p) [] in
  let body := Join (rev stack) "/" in
  let out := if rooted then "/" +:+ body else body in
  if decide (out = "") then "." else out.

(** The part of a path up to and including its last separator. *)
Fixpoint upto_last_slash (s : string) : string :=
  match s with
  | EmptyString => EmptyString
  | String c s' =>
      if Contains s "/" then String c (upto_last_slash s') else EmptyString
  end.

(** [filepath.Dir]. *)
Definition Dir (p : string) : string := Clean (upto_last_slash p).

(** [filepath.Join] of two elements. *)
Definition filepath_Join (a b : string) : string :=
  match decide (a = ""), decide (b = "") with
  | left _, left _ => ""
  | left _, right _ => Clean b
  | right _, left _ => Clean a
  | right _, right _ => Clean (a +:+ "/" +:+ b)
  end.

(** [filepath.Ext]: the suffix from the last dot of the last element. *)
Fixpoint Ext (p : string) : string :=
  match p with
  | EmptyString => EmptyString
  | String c p' =>
      if Contains p' "/" then Ext p'
      else if Contains p' "." then Ext p'
      else if Ascii.eqb c "."%char then p
      else EmptyString
  end.

(** ** Results of fallible code

    A call returns a value, returns a Go [error] (its message), panics,
    or, in this model only, runs out of the fuel that bounds the
    recursion of [Get] through the preprocessors. *)

Inductive failure : Type :=
| Err (msg : string)
| Panic (msg : string)
| OutOfFuel.

Inductive outcome (A : Type) : Type :=
| Ok (a : A)
| Fail (f : failure).

Arguments Ok {A} a.
Arguments Fail {A} f.

Definition is_Ok {A : Type} (o : outcome A) : bool :=
  match o with
  | Ok _ => true
  | Fail _ => false
  end.

Definition index_out_of_range : failure := Panic "index out of range".
Definition slice_out_of_range : failure := Panic "slice bounds out of range".
Definition nil_dereference : failure := Panic "nil pointer dereference".

(** ** The regular expressions of the reference rewriter

    [cssUrlRegex] is [url\([^\)]+\)] and [sourceMapRegex] is
    [sourceMappingURL=\S+].  [match_here re s] is the length of the
    match of [re] that starts at the first byte of [s]. *)

Inductive Regexp : Type := cssUrlRegex | sourceMapRegex.

Fixpoint span (p : ascii → bool) (s : string) : nat :=
  match s with
  | String c s' => if p c then S (span p s') else O
  | EmptyString => O
  end.

Definition not_rparen (c : ascii) : bool := negb (Ascii.eqb c ")"%char).

(** [\S]: anything but tab, line feed, form feed, carriage return, space. *)
Definition non_space (c : ascii) : bool :=
  let n := nat_of_ascii c in
  negb ((n =? 9) || (n =? 10) || (n =? 12) || (n =? 13) || (n =? 32))%nat.

Definition match_here (re : Regexp) (s : string) : option nat :=
  match re with
  | cssUrlRegex =>
      if String.prefix "url(" s then
        let rest := str_drop 4 s in
        let n := span not_rparen rest in
        match n, str_index0 (str_drop n rest) with
        | S _, Some _ => Some (4 + n + 1)%nat
        | _, _ => None
        end
      else None
  | sourceMapRegex =>
      if String.prefix "sourceMappingURL=" s then
        match span non_space (str_drop 17 s) with
        | S n => Some (17 + S n)%nat
        | O => None
        end
      else None
  end.

(** The leftmost non-overlapping matches of [re] in a text, with the
    bytes between them, in order. *)
Inductive segment : Type :=
| Lit (c : ascii)
| Match (m : string).

Fixpoint segments (re : Regexp) (skip : nat) (s : string) : list segment :=
  match s with
  | EmptyString => []
  | String c s' =>
      match skip with
      | S k => segments re k s'
      | O =>
          match match_here re s with
          | Some n => Match (str_take n s) :: segments re (n - 1) s'
          | None => Lit c :: segments re 0 s'
          end
      end
  end.

(** ** The data model *)

(** A [*File]: an index into the store of [File] records. *)
Abbreviation loc := nat (only parsing).

Record File : Type := mkFile {
  path : string;
  Content : slice;
  ContentGZipped : slice;
  Hash : slice;
  HashString : string;
  ContentType : string
}.

(** The values of [templateFuncMap]. *)
Inductive TemplateFunc : Type :=
| func_jscode
| func_asset
| func_assetinline
| func_user (id : nat).

(** The standard library as the registry uses it.  [Parse name funcs
    text] stands for [template.New(name).Funcs(funcs).Parse(text)]
    followed by [Templates()]: the named templates of one unit. *)
Class GoLib : Type := {
  Tree : Type;
  sha1_Sum : string → string;
  gzip_Write : string → string;
  gzip_Read : string → option string;
  TypeByExtension : string → string;
  DetectContentType : string → string;
  Parse : string → gmap string TemplateFunc → string → gmap string Tree + string;
  Expires : Z → string
}.

(** [ioutil.ReadFile]: the bytes of a file, or the message of an error. *)
Definition FileSystem := string → string + string.

Section Registry.
Context {lib : GoLib}.

(** A [*template.Template]: the names associated with it (a name with
    no parse tree is [None]) and the functions it was created with. *)
Record Template : Type := mkTemplate {
  tmpl_name : string;
  tmpl_set : gmap string (option Tree);
  tmpl_funcs : gmap string TemplateFunc
}.

(** A [Preprocessor] is one of the two built-in rewriters or a function
    of the caller's.  The latter is taken to depend on the virtual path
    and the content only: a preprocessor that calls back into the
    registry other than the built-in ones is outside this model.  Like
    any Go function of this type it may return the nil slice. *)
Inductive Preprocessor : Type :=
| AssetCssPreprocessor
| AssetSourceMapPreprocessor
| PurePreprocessor (f : string → slice → outcome slice).

Record Assets : Type := mkAssets {
  version : Z;
  baseURL : string;
  preprocessors : gmap string (list Preprocessor);
  entries : gmap string loc;
  byChecksum : gmap string loc;
  templateCache : gmap string Template;
  templateCacheVersion : Z;
  templateFuncMap : gmap string TemplateFunc;
  store : list File
}.

(** Go's [int], 64 bits wide: [wrap] is what [++] leaves. *)
Definition int_bits : Z := 64.
Definition int_min : Z := - 2 ^ (int_bits - 1).
Definition int_max : Z := 2 ^ (int_bits - 1) - 1.
Definition wrap (n : Z) : Z :=
  (n + 2 ^ (int_bits - 1)) mod 2 ^ int_bits - 2 ^ (int_bits - 1).

Definition with_store (st : list File) (f : Assets) : Assets :=
  mkAssets (version f) (baseURL f) (preprocessors f) (entries f) (byChecksum f)
    (templateCache f) (templateCacheVersion f) (templateFuncMap f) st.

Definition with_byChecksum (m : gmap string loc) (f : Assets) : Assets :=
  mkAssets (version f) (baseURL f) (preprocessors f) (entries f) m
    (templateCache f) (templateCacheVersion f) (templateFuncMap f) (store f).

Definition with_preprocessors (m : gmap string (list Preprocessor)) (f : Assets)
  : Assets :=
  mkAssets (version f) (baseURL f) m (entries f) (byChecksum f)
    (templateCache f) (templateCacheVersion f) (templateFuncMap f) (store f).

Definition with_templateCache (m : gmap string Template) (f : Assets) : Assets :=
  mkAssets (version f) (baseURL f) (preprocessors f) (entries f) (byChecksum f)
    m (templateCacheVersion f) (templateFuncMap f) (store f).

Definition with_templateFuncMap (m : gmap string TemplateFunc) (f : Assets)
  : Assets :=
  mkAssets (version f) (baseURL f) (preprocessors f) (entries f) (byChecksum f)
    (templateCache f) (templateCacheVersion f) m (store f).

(** An assignment to a field of [*l]. *)
Definition update_file (l : loc) (g : File → File) (f : Assets) : Assets :=
  match store f !! l with
  | Some file => with_store (<[l := g file]> (store f)) f
  | None => f
  end.

Definition set_ContentType (ct : string) (file : File) : File :=
  mkFile (path file) (Content file) (ContentGZipped file) (Hash file)
    (HashString file) ct.

Definition set_ContentGZipped (z : slice) (file : File) : File :=
  mkFile (path file) (Content file) z (Hash file) (HashString file)
    (ContentType file).

Definition set_Hash (h : slice) (file : File) : File :=
  mkFile (path file) (Content file) (ContentGZipped file) h (HashString file)
    (ContentType file).

Definition set_HashString (h : string) (file : File) : File :=
  mkFile (path file) (Content file) (ContentGZipped file) (Hash file) h
    (ContentType file).

Definition set_Content (c : slice) (file : File) : File :=
  mkFile (path file) c (ContentGZipped file) (Hash file) (HashString file)
    (ContentType file).

(** ** Registration *)

Definition AddPreprocessor (extension : string) (processor : Preprocessor)
  (f : Assets) : Assets :=
  let preprocessors_ := default [] (preprocessors f !! extension) in
  with_preprocessors
    (<[extension := (preprocessors_ ++ [processor])%list]> (preprocessors f)) f.

Definition ClearPreprocessors (extension : string) (f : Assets) : Assets :=
  with_preprocessors (delete extension (preprocessors f)) f.

Definition SetTemplateFunc (name : string) (templateFunc : TemplateFunc)
  (f : Assets) : Assets :=
  with_templateFuncMap (<[name := templateFunc]> (templateFuncMap f)) f.

Definition AddFile (file virtualPath : string) (f : Assets) : Assets :=
  mkAssets (wrap (version f + 1)) (baseURL f) (preprocessors f)
    (<[virtualPath := List.length (store f)]> (entries f)) (byChecksum f)
    (templateCache f) (templateCacheVersion f) (templateFuncMap f)
    (store f ++ [mkFile file None None None "" ""])%list.

Definition NewAssets (baseURL_ : string) : Assets :=
  let assets :=
    mkAssets 0 baseURL_ ∅ ∅ ∅ ∅ 0
      (<["jscode" := func_jscode]>
         (<["asset" := func_asset]>
            (<["assetinline" := func_assetinline]> ∅)))
      [] in
  AddPreprocessor ".css" AssetSourceMapPreprocessor
    (AddPreprocessor ".css" AssetCssPreprocessor assets).

(** [AddDirectory]: [filepath.Walk] is given by what it visits, the
    regular files (path, path relative to the directory) in order and
    the error that ended the walk, if any. *)
Definition AddDirectory (walk : list (string * string)) (err : option string)
  (virtualPath : string) (f : Assets) : option string * Assets :=
  (err, foldl (λ f' '(p, rel), AddFile p (virtualPath +:+ rel) f') f walk).

(** ** Resolution

    [Get] calls the preprocessors, and the built-in ones call [GetUrl]
    and so [Get] again: the functions below take the recursive call as
    [get], and [Get] ties the knot on its fuel. *)

Definition getter := string → Assets → outcome loc * Assets.

Definition GetUrl_with (get : getter) (virtualPath : string) (f : Assets)
  : outcome string * Assets :=
  match get virtualPath f with
  | (Ok l, f') =>
      match store f' !! l with
      | Some file => (Ok (baseURL f' +:+ HashString file), f')
      | None => (Fail nil_dereference, f')
      end
  | (Fail e, f') => (Fail e, f')
  end.

Definition getRooted (fromFile targetFile : string) : outcome string :=
  match str_index0 targetFile with
  | None => Fail index_out_of_range
  | Some c =>
      if Ascii.eqb c slash then Ok targetFile
      else Ok (filepath_Join (Dir fromFile) targetFile)
  end.

(** The function [replaceProcessor] hands to [ReplaceAllFunc]: the
    replacement of one match, with the captured [replaceErr]. *)
Definition replace_match (get : getter) (path_ prefix postfix m : string)
  (replaceErr : option string) (f : Assets)
  : outcome string * option string * Assets :=
  match str_slice (len prefix) (len m - len postfix) m with
  | None => (Fail slice_out_of_range, replaceErr, f)
  | Some file =>
      match getRooted path_ (TrimSpace file) with
      | Fail (Err e) => (Ok m, Some e, f)
      | Fail e => (Fail e, replaceErr, f)
      | Ok rootedPath =>
          match GetUrl_with get rootedPath f with
          | (Ok url, f') => (Ok (prefix +:+ url +:+ postfix), replaceErr, f')
          | (Fail (Err e), f') => (Ok m, Some e, f')
          | (Fail e, f') => (Fail e, replaceErr, f')
          end
      end
  end.

(** [regex.ReplaceAllFunc] over the segments of the content. *)
Fixpoint replace_segments (get : getter) (path_ prefix postfix : string)
  (segs : list segment) (replaceErr : option string) (f : Assets)
  : outcome string * option string * Assets :=
  match segs with
  | [] => (Ok "", replaceErr, f)
  | Lit c :: rest =>
      match replace_segments get path_ prefix postfix rest replaceErr f with
      | (Ok out, e, f') => (Ok (String c out), e, f')
      | failed => failed
      end
  | Match m :: rest =>
      match replace_match get path_ prefix postfix m replaceErr f with
      | (Ok r, e1, f1) =>
          match replace_segments get path_ prefix postfix rest e1 f1 with
          | (Ok out, e2, f2) => (Ok (r +:+ out), e2, f2)
          | failed => failed
          end
      | failed => failed
      end
  end.

(** What [ReplaceAllFunc] returns for the bytes it produced: it appends
    to a nil slice, which stays nil when nothing is appended. *)
Definition appended (out : string) : slice :=
  if decide (out = "") then None else Some out.

Definition replaceProcessor (get : getter) (path_ : string) (content : slice)
  (regex : Regexp) (prefix postfix : string) (f : Assets)
  : outcome slice * Assets :=
  match replace_segments get path_ prefix postfix
          (segments regex 0 (bytes_of content)) None f with
  | (Ok newContent, None, f') => (Ok (appended newContent), f')
  | (Ok _, Some e, f') => (Fail (Err e), f')
  | (Fail x, _, f') => (Fail x, f')
  end.

Definition run_preprocessor (get : getter) (processor : Preprocessor)
  (path_ : string) (content : slice) (f : Assets) : outcome slice * Assets :=
  match processor with
  | AssetCssPreprocessor =>
      replaceProcessor get path_ content cssUrlRegex "url(" ")" f
  | AssetSourceMapPreprocessor =>
      replaceProcessor get path_ content sourceMapRegex "sourceMappingURL=" "" f
  | PurePreprocessor g => (g path_ content, f)
  end.

(** The loop of [Get] over the preprocessors of the extension. *)
Fixpoint run_preprocessors (get : getter) (ps : list Preprocessor)
  (virtualPath : string) (fileContent : slice) (f : Assets)
  : outcome slice * Assets :=
  match ps with
  | [] => (Ok fileContent, f)
  | processor :: rest =>
      match run_preprocessor get processor virtualPath fileContent f with
      | (Ok newContent, f') => run_preprocessors get rest virtualPath newContent f'
      | (Fail e, f') => (Fail e, f')
      end
  end.

(** Lines 169-180 of [Get]: the compressed content and the digest. *)
Definition materialize (l : loc) (fileContent : slice) (f : Assets) : Assets :=
  let f1 := update_file l
              (set_ContentGZipped (Some (gzip_Write (bytes_of fileContent)))) f in
  let hash := sha1_Sum (bytes_of fileContent) in
  let f2 := update_file l (set_Hash (Some hash)) f1 in
  update_file l (set_HashString (EncodeToString hash)) f2.

(** Lines 181-183 of [Get]: [f.byChecksum[file.HashString] = file]. *)
Definition publish (l : loc) (f : Assets) : Assets :=
  match store f !! l with
  | Some file => with_byChecksum (<[HashString file := l]> (byChecksum f)) f
  | None => f
  end.

(** [Get] up to and including line 183.  The result is the pointer and,
    when the body of [if file.Content == nil] was entered, the content
    that line 186 has still to assign. *)
Definition Get_until_publish (get : getter) (fs : FileSystem)
  (virtualPath : string) (f : Assets) : outcome (loc * option slice) * Assets :=
  match entries f !! virtualPath with
  | None => (Fail (Err ("File Not Found: " +:+ virtualPath)), f)
  | Some l =>
      match store f !! l with
      | None => (Fail nil_dereference, f)
      | Some file =>
          match Content file with
          | Some _ => (Ok (l, None), f)
          | None =>
              match fs (path file) with
              | inr e => (Fail (Err e), f)
              | inl raw =>
                  let extension := Ext (path file) in
                  let ct := TypeByExtension extension in
                  let ct := if decide (ct = "") then DetectContentType raw else ct in
                  let f1 := update_file l (set_ContentType ct) f in
                  let ps := default [] (preprocessors f1 !! extension) in
                  match run_preprocessors get ps virtualPath (Some raw) f1 with
                  | (Ok fileContent, f2) =>
                      (Ok (l, Some fileContent),
                       publish l (materialize l fileContent f2))
                  | (Fail e, f2) => (Fail e, f2)
                  end
              end
          end
      end
  end.

(** [Get]: line 186 assigns the content last. *)
Definition Get_with (get : getter) (fs : FileSystem) (virtualPath : string)
  (f : Assets) : outcome loc * Assets :=
  match Get_until_publish get fs virtualPath f with
  | (Ok (l, Some fileContent), f') =>
      (Ok l, update_file l (set_Content fileContent) f')
  | (Ok (l, None), f') => (Ok l, f')
  | (Fail e, f') => (Fail e, f')
  end.

Fixpoint Get (fuel : nat) (fs : FileSystem) (virtualPath : string) (f : Assets)
  : outcome loc * Assets :=
  match fuel with
  | O => (Fail OutOfFuel, f)
  | S n => Get_with (Get n fs) fs virtualPath f
  end.

Definition GetUrl (fuel : nat) (fs : FileSystem) : string → Assets →
  outcome string * Assets :=
  GetUrl_with (Get fuel fs).

(** ** Serving *)

(** An [http.ResponseWriter]: the header map, the status once it is
    written, and the body. *)
Record ResponseWriter : Type := mkResponse {
  w_header : gmap string string;
  w_status : option Z;
  w_body : string
}.

Definition new_response : ResponseWriter := mkResponse ∅ None "".

Definition Header_Set (k v : string) (w : ResponseWriter) : ResponseWriter :=
  mkResponse (<[k := v]> (w_header w)) (w_status w) (w_body w).

Definition WriteHeader (code : Z) (w : ResponseWriter) : ResponseWriter :=
  mkResponse (w_header w)
    (match w_status w with Some c => Some c | None => Some code end)
    (w_body w).

(** [w.Write]: the first write sends status 200 unless one was sent. *)
Definition Write (b : string) (w : ResponseWriter) : ResponseWriter :=
  let w' := WriteHeader 200 w in
  mkResponse (w_header w') (w_status w') (w_body w' +:+ b).

Definition newline : string := String (ascii_of_nat 10) EmptyString.

Definition httpError (w : ResponseWriter) (code : Z) (message : string)
  : ResponseWriter :=
  Write (message +:+ newline)
    (WriteHeader code
       (Header_Set "Content-Type" "text/plain; charset=utf-8" w)).

(** An [*http.Request], as far as [Serve] reads it. *)
Record Request : Type := mkRequest { r_header : gmap string string }.

Definition Header_Get (r : Request) (k : string) : string :=
  default "" (r_header r !! k).

Definition accepts_gzip (r : option Request) : bool :=
  match r with
  | Some req => Contains (Header_Get req "Accept-Encoding") "gzip"
  | None => false
  end.

(** [Serve]; [now] is [time.Now()]. *)
Definition Serve (url : string) (w : ResponseWriter) (r : option Request)
  (now : Z) (f : Assets) : outcome ResponseWriter :=
  if decide (len url < len (baseURL f)) then
    Ok (httpError w 404 "404 - File not found")
  else
    let checksum := str_drop (String.length (baseURL f)) url in
    match byChecksum f !! checksum with
    | None => Ok (httpError w 404 "404 - File not found")
    | Some l =>
        match store f !! l with
        | None => Fail nil_dereference
        | Some file =>
            let w1 := Header_Set "Content-Type" (ContentType file) w in
            let w2 := Header_Set "Expires" (Expires now) w1 in
            if accepts_gzip r then
              Ok (Write (bytes_of (ContentGZipped file))
                    (Header_Set "Content-Encoding" "gzip" w2))
            else Ok (Write (bytes_of (Content file)) w2)
        end
    end.

(** ** Templates *)

Definition shell_name : string := "temp-outer-template-shell".

(** [template.New(name).Funcs(funcs)]: the new template is associated
    with itself and has no parse tree. *)
Definition template_New (name : string) (funcs : gmap string TemplateFunc)
  : Template :=
  mkTemplate name {[name := None]} funcs.

Definition Lookup (t : Template) (name : string) : option (option Tree) :=
  tmpl_set t !! name.

Definition AddParseTree (name : string) (tree : Tree) (t : Template) : Template :=
  mkTemplate (tmpl_name t) (<[name := Some tree]> (tmpl_set t)) (tmpl_funcs t).

(** The loop over [temp.Templates()]. *)
Definition add_templates (temp : list (string * Tree)) (tmpl : Template)
  : Template :=
  foldl (λ acc '(name, tree),
           match Lookup acc name with
           | None => AddParseTree name tree acc
           | Some _ => acc
           end) tmpl temp.

(** The loop of [GetTemplate] over [templatePathArr]. *)
Fixpoint compile_paths (get : getter) (paths : list string) (tmpl : Template)
  (f : Assets) : outcome Template * Assets :=
  match paths with
  | [] => (Ok tmpl, f)
  | path_ :: rest =>
      if decide (path_ = "") then compile_paths get rest tmpl f
      else
        match get path_ f with
        | (Fail e, f') => (Fail e, f')
        | (Ok l, f') =>
            match store f' !! l with
            | None => (Fail nil_dereference, f')
            | Some file =>
                match Parse path_ (templateFuncMap f') (bytes_of (Content file)) with
                | inr e => (Fail (Err (path_ +:+ ": " +:+ e)), f')
                | inl temp =>
                    compile_paths get rest
                      (add_templates (map_to_list temp) tmpl) f'
                end
            end
        end
  end.

(** Lines 250-255: reset the cache if the version has changed. *)
Definition reset_cache (f : Assets) : Assets :=
  if decide (version f ≠ templateCacheVersion f) then
    mkAssets (version f) (baseURL f) (preprocessors f) (entries f)
      (byChecksum f) ∅ (version f) (templateFuncMap f) (store f)
  else f.

Definition GetTemplate (fuel : nat) (fs : FileSystem)
  (templatePathArr : list string) (f : Assets) : outcome Template * Assets :=
  let f1 := reset_cache f in
  let cacheKey := Join templatePathArr "<" in
  match templateCache f1 !! cacheKey with
  | Some tmpl => (Ok tmpl, f1)
  | None =>
      match compile_paths (Get fuel fs) templatePathArr
              (template_New shell_name (templateFuncMap f1)) f1 with
      | (Ok tmpl, f2) =>
          (Ok tmpl, with_templateCache (<[cacheKey := tmpl]> (templateCache f2)) f2)
      | (Fail e, f2) => (Fail e, f2)
      end
  end.

(** The built-in template functions ["asset"] and ["assetinline"]. *)
Definition template_asset (fuel : nat) (fs : FileSystem) (virtualPath : string)
  (f : Assets) : outcome string * Assets :=
  match str_index0 virtualPath with
  | None => (Fail index_out_of_range, f)
  | Some c =>
      if negb (Ascii.eqb c slash) then
        (Fail (Err "path argument must start with '/'"), f)
      else GetUrl fuel fs virtualPath f
  end.

Definition template_assetinline (fuel : nat) (fs : FileSystem)
  (virtualPath : string) (f : Assets) : outcome string * Assets :=
  match str_index0 virtualPath with
  | None => (Fail index_out_of_range, f)
  | Some c =>
      if negb (Ascii.eqb c slash) then
        (Fail (Err "path argument must start with '/'"), f)
      else
        match Get fuel fs virtualPath f with
        | (Fail e, f') => (Fail e, f')
        | (Ok l, f') =>
            match store f' !! l with
            | None => (Fail nil_dereference, f')
            | Some file => (Ok (bytes_of (Content file)), f')
            end
        end
  end.

(** [t.ExecuteTemplate(w, name, data)] belongs to the template engine:
    it is a parameter, a function of the template, the sink and the
    registry (which the template functions reach) that returns the
    error, if any. *)
Definition Executor (Data : Type) : Type :=
  Template → ResponseWriter → string → Data → Assets →
  option string * ResponseWriter * Assets.

Definition RenderNamedTemplate {Data : Type} (ExecuteTemplate : Executor Data)
  (fuel : nat) (fs : FileSystem) (templatePathArr : list string)
  (name : string) (w : ResponseWriter) (data : Data) (f : Assets)
  : outcome unit * ResponseWriter * Assets :=
  match GetTemplate fuel fs templatePathArr f with
  | (Fail (Err e), f1) => (Fail (Err e), httpError w 500 e, f1)
  | (Fail x, f1) => (Fail x, w, f1)
  | (Ok t, f1) =>
      match ExecuteTemplate t w name data f1 with
      | (Some e, w', f2) => (Fail (Err e), httpError w' 500 e, f2)
      | (None, w', f2) => (Ok (), w', f2)
      end
  end.

(** [templatePathArr[len(templatePathArr)-1]]. *)
Definition last_element (templatePathArr : list string) : outcome string :=
  match last templatePathArr with
  | Some name => Ok name
  | None => Fail index_out_of_range
  end.

Definition RenderTemplate {Data : Type} (ExecuteTemplate : Executor Data)
  (fuel : nat) (fs : FileSystem) (templatePathArr : list string)
  (w : ResponseWriter) (data : Data) (f : Assets)
  : outcome unit * ResponseWriter * Assets :=
  match last_element templatePathArr with
  | Fail x => (Fail x, w, f)
  | Ok name =>
      RenderNamedTemplate ExecuteTemplate fuel fs templatePathArr name w data f
  end.

(** ** Histories of calls

    A registry is used through a sequence of calls.  Each call that
    resolves an asset carries the fuel it runs with and the file system
    it finds.  Rendering is not a call of its own: what the engine does
    to the registry while it executes a template it does through
    [GetTemplate] and the template functions, which are. *)

Inductive op : Type :=
| OpAddFile (file virtualPath : string)
| OpAddDirectory (walk : list (string * string)) (err : option string)
    (virtualPath : string)
| OpAddPreprocessor (extension : string) (processor : Preprocessor)
| OpClearPreprocessors (extension : string)
| OpSetTemplateFunc (name : string) (templateFunc : TemplateFunc)
| OpGet (fuel : nat) (fs : FileSystem) (virtualPath : string)
| OpGetUrl (fuel : nat) (fs : FileSystem) (virtualPath : string)
| OpServe (url : string) (r : option Request) (now : Z)
| OpGetTemplate (fuel : nat) (fs : FileSystem) (templatePathArr : list string)
| OpAsset (fuel : nat) (fs : FileSystem) (virtualPath : string)
| OpAssetInline (fuel : nat) (fs : FileSystem) (virtualPath : string).

Definition step (o : op) (f : Assets) : Assets :=
  match o with
  | OpAddFile file virtualPath => AddFile file virtualPath f
  | OpAddDirectory walk err virtualPath => (AddDirectory walk err virtualPath f).2
  | OpAddPreprocessor extension processor => AddPreprocessor extension processor f
  | OpClearPreprocessors extension => ClearPreprocessors extension f
  | OpSetTemplateFunc name templateFunc => SetTemplateFunc name templateFunc f
  | OpGet fuel fs virtualPath => (Get fuel fs virtualPath f).2
  | OpGetUrl fuel fs virtualPath => (GetUrl fuel fs virtualPath f).2
  | OpServe _ _ _ => f
  | OpGetTemplate fuel fs templatePathArr => (GetTemplate fuel fs templatePathArr f).2
  | OpAsset fuel fs virtualPath => (template_asset fuel fs virtualPath f).2
  | OpAssetInline fuel fs virtualPath => (template_assetinline fuel fs virtualPath f).2
  end.

Definition run (ops : list op) (f : Assets) : Assets :=
  foldl (λ f' o, step o f') f ops.

(** The calls that register files, and how many files each registers. *)
Definition registrations (o : op) : nat :=
  match o with
  | OpAddFile _ _ => 1
  | OpAddDirectory walk _ _ => List.length walk
  | _ => 0
  end.

(** The calls that go through [Get]. *)
Definition calls_Get (o : op) : bool :=
  match o with
  | OpGet _ _ _ | OpGetUrl _ _ _ | OpGetTemplate _ _ _
  | OpAsset _ _ _ | OpAssetInline _ _ _ => true
  | _ => false
  end.

End Registry.

(** ** A small instance of the library, to run the model

    The digest and the compression are stand-ins (a reversal, a tag in
    front); only files ending in [.css] and [.png] have a known type. *)

Definition demo_gunzip (z : string) : option string :=
  match z with
  | String "g" (String "z" (String ":" c)) => Some c
  | _ => None
  end.

Definition demo_lib : GoLib := {|
  Tree := string;
  sha1_Sum := String.rev;
  gzip_Write := λ c, "gz:" +:+ c;
  gzip_Read := demo_gunzip;
  TypeByExtension := λ e,
    if decide (e = ".css") then "text/css; charset=utf-8"
    else if decide (e = ".png") then "image/png" else "";
  DetectContentType := λ _, "text/plain; charset=utf-8";
  Parse := λ name _ text,
    if decide (text = "") then inr "empty template"
    else inl (if Contains text "{{define header}}"
              then <["header" := "header of " +:+ name]> {[name := text]}
              else {[name := text]});
  Expires := λ _, "Sat, 31 Oct 2027 00:00:00 GMT"
|}.

(** A file system with a style sheet, the image it refers to, an empty
    style sheet, one with a blank reference, and two templates. *)
Definition demo_fs : FileSystem := λ p,
  if decide (p = "static/css/style.css") then inl "a{background:url(./logo.png)}"
  else if decide (p = "static/css/logo.png") then inl "PNG"
  else if decide (p = "static/css/empty.css") then inl ""
  else if decide (p = "static/css/blank.css") then inl "a{background:url( )}"
  else if decide (p = "tpl/a.html") then inl "{{define header}}A"
  else if decide (p = "tpl/b.html") then inl "{{define header}}B"
  else inr ("open " +:+ p +:+ ": no such file or directory").

(** The same file system once [empty.css] has been written. *)
Definition demo_fs_rewritten : FileSystem := λ p,
  if decide (p = "static/css/empty.css") then inl "b{}" else demo_fs p.

(** The same file system once [style.css] imports itself. *)
Definition demo_fs_cycle : FileSystem := λ p,
  if decide (p = "static/css/style.css") then inl "@import url(style.css);"
  else demo_fs p.

(** A history that registers the four style-sheet files. *)
Definition demo_registration : list op :=
  [ OpAddFile "static/css/style.css" "/css/style.css";
    OpAddFile "static/css/logo.png" "/css/logo.png";
    OpAddFile "static/css/empty.css" "/css/empty.css";
    OpAddFile "static/css/blank.css" "/css/blank.css" ].

Definition demo_registry : @Assets demo_lib :=
  run demo_registration (NewAssets "/a/").

(** A registry with the two templates, both of which define [header]. *)
Definition demo_templates : @Assets demo_lib :=
  AddFile "tpl/b.html" "/b.html" (AddFile "tpl/a.html" "/a.html" (NewAssets "/a/")).

Definition demo_unit (name text : string) : gmap string string :=
  <["header" := "header of " +:+ name]> {[name := text]}.

(** An engine that writes the name of the template it executes. *)
Definition demo_execute : @Executor demo_lib unit :=
  λ _ w name _ f, (None, Write name w, f).

(** ** Properties of registries *)

Section Specification.
Context {lib : GoLib}.

(** Everything but the store and the fingerprint table is the same. *)
Definition same_registration (f f' : Assets) : Prop :=
  version f' = version f ∧ baseURL f' = baseURL f ∧
  preprocessors f' = preprocessors f ∧ entries f' = entries f ∧
  templateCache f' = templateCache f ∧
  templateCacheVersion f' = templateCacheVersion f ∧
  templateFuncMap f' = templateFuncMap f.

(** The compressed content and the digests of a file are those of the
    content it holds (of no bytes for the nil slice). *)
Definition digested (file : File) : Prop :=
  ContentGZipped file = Some (gzip_Write (bytes_of (Content file))) ∧
  Hash file = Some (sha1_Sum (bytes_of (Content file))) ∧
  HashString file = EncodeToString (sha1_Sum (bytes_of (Content file))).

Definition pristine (file : File) : Prop :=
  Content file = None ∧ ContentGZipped file = None.

(** The invariant of the registry between calls. *)
Definition consistent (f : Assets) : Prop :=
  (∀ l file, store f !! l = Some file → pristine file ∨ digested file) ∧
  (∀ h l, byChecksum f !! h = Some l →
          ∃ file, store f !! l = Some file ∧ digested file) ∧
  (∀ p l, entries f !! p = Some l → is_Some (store f !! l)).

Definition consistency (f f' : Assets) : Prop := consistent f → consistent f'.

(** A content that is set stays as it is. *)
Definition keeps_content (f f' : Assets) : Prop :=
  ∀ l file c, store f !! l = Some file → Content file = Some c →
              ∃ file', store f' !! l = Some file' ∧ Content file' = Some c ∧
                       HashString file' = HashString file ∧
                       ContentGZipped file' = ContentGZipped file.

(** The store keeps its pointers, and the fingerprint table its keys. *)
Definition grows (f f' : Assets) : Prop :=
  (∀ l, is_Some (store f !! l) → is_Some (store f' !! l)) ∧
  (∀ h, is_Some (byChecksum f !! h) → is_Some (byChecksum f' !! h)).

Definition in_int_range (n : Z) : Prop := int_min ≤ n ≤ int_max.

Definition same_version (f f' : Assets) : Prop := version f' = version f.

Definition same_baseURL (f f' : Assets) : Prop := baseURL f' = baseURL f.

(** The number of files a history registers. *)
Definition registered (ops : list op) : nat :=
  foldr (λ o n, (registrations o + n)%nat) 0%nat ops.

(** The fingerprint [h] entered the table in a call that goes through
    [Get]. *)
Definition published_by_Get (ops : list op) (f : Assets) (h : string) : Prop :=
  ∃ before o after,
    ops = (before ++ o :: after)%list ∧ calls_Get o = true ∧
    byChecksum (run before f) !! h = None ∧
    is_Some (byChecksum (run (before ++ [o]) f) !! h).

(** Resolving [p] in [f] leaves [f'] and the parsed unit [u]. *)
Definition unit_of (fuel : nat) (fs : FileSystem) (p : string) (f f' : Assets)
  (u : gmap string Tree) : Prop :=
  ∃ l file, Get fuel fs p f = (Ok l, f') ∧ store f' !! l = Some file ∧
            Parse p (templateFuncMap f') (bytes_of (Content file)) = inl u.

(** The last assignments of [Get]: lines 169 to 186. *)
Definition finish (l : loc) (fileContent : slice) (f : Assets) : Assets :=
  update_file l (set_Content fileContent)
    (publish l (materialize l fileContent f)).

(** What a chain of preprocessors returns when none of them is a
    built-in rewriter, so that none calls the registry: each runs on
    the output of the one before, and the first failure ends the
    chain. *)
Fixpoint pure_chain (ps : list Preprocessor) (p : string) (c : slice)
  : option (outcome slice) :=
  match ps with
  | [] => Some (Ok c)
  | PurePreprocessor g :: rest =>
      match g p c with
      | Ok c' => pure_chain rest p c'
      | Fail e => Some (Fail e)
      end
  | _ :: _ => None
  end.

(** The content type [Get] assigns: by extension, else by the bytes
    read from the file. *)
Definition content_type (file raw : string) : string :=
  if decide (TypeByExtension (Ext file) = "") then DetectContentType raw
  else TypeByExtension (Ext file).

(** The call [o] registers the virtual path [p]. *)
Definition registers (o : op) (p : string) : Prop :=
  match o with
  | OpAddFile _ q => q = p
  | OpAddDirectory walk _ virtualPath =>
      ∃ a rel, (a, rel) ∈ walk ∧ virtualPath +:+ rel = p
  | _ => False
  end.

Definition same_entries (f f' : Assets) : Prop := entries f' = entries f.

(** The fingerprint of every file that [Get] has been through is a key
    of [byChecksum]. *)
Definition published (f : Assets) : Prop :=
  ∀ l file, store f !! l = Some file → ContentGZipped file ≠ None →
            is_Some (byChecksum f !! HashString file).

Definition publishing (f f' : Assets) : Prop := published f → published f'.

(** The version is the same and, if the cache was stamped with it, the
    cache still is and holds what it held. *)
Definition keeps_cache (f f' : Assets) : Prop :=
  version f' = version f ∧
  (templateCacheVersion f = version f →
   templateCacheVersion f' = version f' ∧
   ∀ k t, templateCache f !! k = Some t → templateCache f' !! k = Some t).

(** The matches among the segments of a text, in order. *)
Fixpoint matches (segs : list segment) : list string :=
  match segs with
  | [] => []
  | Lit _ :: rest => matches rest
  | Match m :: rest => m :: matches rest
  end.

(** The literal text every match of a regular expression starts with. *)
Definition literal (re : Regexp) : string :=
  match re with
  | cssUrlRegex => "url("
  | sourceMapRegex => "sourceMappingURL="
  end.

(** A text put together from its segments, with [subst] in the place
    of every match. *)
Fixpoint rewritten (subst : string → string) (segs : list segment) : string :=
  match segs with
  | [] => ""
  | Lit c :: rest => String c (rewritten subst rest)
  | Match m :: rest => subst m +:+ rewritten subst rest
  end.

End Specification.

(** ** What every call through [Get] preserves

    A relation between the registry before and after a call that holds
    across the two kinds of assignment [Get] makes holds across [Get]
    and across all that is built on it. *)

Section Preservation.
Context {lib : GoLib}.
Variable R : Assets → Assets → Prop.
Hypothesis R_refl : ∀ f, R f f.
Hypothesis R_trans : ∀ f g h, R f g → R g h → R f h.
Hypothesis R_type : ∀ l ct f, R f (update_file l (set_ContentType ct) f).
Hypothesis R_finish : ∀ l fc f0 f2 file0,
  store f0 !! l = Some file0 → Content file0 = None →
  R f0 f2 → R f0 (finish l fc f2).

Definition preserves (get : getter) : Prop := ∀ p f, R f (get p f).2.

Lemma GetUrl_with_preserves get p f :
  preserves get → R f (GetUrl_with get p f).2.
Proof.
  intros Hget. unfold GetUrl_with. specialize (Hget p f).
  destruct (get p f) as [[l|e] f']; simpl in *; [|done].
  by destruct (store f' !! l).
Qed.

Lemma replace_match_preserves get p pre post m e f :
  preserves get → R f (replace_match get p pre post m e f).2.
Proof.
  intros Hget. unfold replace_match.
  destruct (str_slice _ _ m); [|apply R_refl].
  destruct (getRooted _ _) as [rooted|[]]; try apply R_refl.
  pose proof (GetUrl_with_preserves get rooted f Hget) as H.
  destruct (GetUrl_with get rooted f) as [[url|[]] f']; exact H.
Qed.

Lemma replace_segments_preserves get p pre post segs :
  preserves get → ∀ e f, R f (replace_segments get p pre post segs e f).2.
Proof.
  intros Hget. induction segs as [|[c|m] rest IH]; intros e f; simpl.
  - apply R_refl.
  - specialize (IH e f).
    by destruct (replace_segments get p pre post rest e f) as [[[out|x] e'] f'].
  - pose proof (replace_match_preserves get p pre post m e f Hget) as H1.
    destruct (replace_match get p pre post m e f) as [[[r|x] e1] f1];
      simpl in *; [|done].
    specialize (IH e1 f1).
    destruct (replace_segments get p pre post rest e1 f1) as [[[out|x] e2] f2];
      simpl in *; by eapply R_trans.
Qed.

Lemma replaceProcessor_preserves get p content re pre post f :
  preserves get → R f (replaceProcessor get p content re pre post f).2.
Proof.
  intros Hget. unfold replaceProcessor.
  pose proof (replace_segments_preserves get p pre post
                (segments re 0 (bytes_of content)) Hget None f) as H.
  by destruct (replace_segments _ _ _ _ _ _ _) as [[[out|x] [e|]] f'].
Qed.

Lemma run_preprocessor_preserves get processor p content f :
  preserves get → R f (run_preprocessor get processor p content f).2.
Proof.
  intros Hget.
  destruct processor; simpl;
    [by apply replaceProcessor_preserves ..| apply R_refl].
Qed.

Lemma run_preprocessors_preserves get ps p :
  preserves get → ∀ content f, R f (run_preprocessors get ps p content f).2.
Proof.
  intros Hget. induction ps as [|processor rest IH]; intros content f; simpl.
  - apply R_refl.
  - pose proof (run_preprocessor_preserves get processor p content f Hget) as H.
    destruct (run_preprocessor get processor p content f) as [[c|x] f'];
      simpl in *; [|done].
    eapply R_trans; [exact H | apply IH].
Qed.

Lemma Get_with_preserves get fs : preserves get → preserves (Get_with get fs).
Proof.
  intros Hget p f. unfold Get_with, Get_until_publish.
  destruct (entries f !! p) as [l|]; [|apply R_refl].
  destruct (store f !! l) as [file|] eqn:Hl; [|apply R_refl].
  destruct (Content file) eqn:Hc; [apply R_refl|].
  destruct (fs (path file)) as [raw|e]; [|apply R_refl].
  match goal with
  | |- context [run_preprocessors get ?ps p ?c ?f1] =>
      pose proof (run_preprocessors_preserves get ps p Hget c f1) as H;
      destruct (run_preprocessors get ps p c f1) as [[fc|x] f2]
  end; simpl in *.
  - eapply (R_finish l fc f f2 file); [done..|].
    eapply R_trans; [apply R_type | exact H].
  - eapply R_trans; [apply R_type | exact H].
Qed.

Lemma Get_preserves fuel fs : preserves (Get fuel fs).
Proof.
  induction fuel as [|n IH]; [intros p f; apply R_refl|].
  simpl. by apply Get_with_preserves.
Qed.

Lemma GetUrl_preserves fuel fs p f : R f (GetUrl fuel fs p f).2.
Proof. apply GetUrl_with_preserves, Get_preserves. Qed.

Lemma compile_paths_preserves get paths :
  preserves get → ∀ tmpl f, R f (compile_paths get paths tmpl f).2.
Proof.
  intros Hget. induction paths as [|p rest IH]; intros tmpl f; simpl.
  - apply R_refl.
  - case_decide; [apply IH|].
    specialize (Hget p f).
    destruct (get p f) as [[l|x] f']; simpl in *; [|done].
    destruct (store f' !! l) as [file|]; [|done].
    destruct (Parse _ _ _); [|done].
    eapply R_trans; [exact Hget | apply IH].
Qed.

Lemma template_asset_preserves fuel fs p f : R f (template_asset fuel fs p f).2.
Proof.
  unfold template_asset. destruct (str_index0 p); [|apply R_refl].
  destruct (negb _); [apply R_refl | apply GetUrl_preserves].
Qed.

Lemma template_assetinline_preserves fuel fs p f :
  R f (template_assetinline fuel fs p f).2.
Proof.
  unfold template_assetinline. destruct (str_index0 p); [|apply R_refl].
  destruct (negb _); [apply R_refl|].
  pose proof (Get_preserves fuel fs p f) as H.
  destruct (Get fuel fs p f) as [[l|x] f']; simpl in *; [|done].
  by destruct (store f' !! l).
Qed.

End Preservation.

(** ** The assignments of [Get] *)

Section Assignments.
Context {lib : GoLib}.

Lemma update_file_Some l g f file :
  store f !! l = Some file →
  update_file l g f = with_store (<[l := g file]> (store f)) f.
Proof. intros H. unfold update_file. by rewrite H. Qed.

Lemma update_file_None l g f : store f !! l = None → update_file l g f = f.
Proof. intros H. unfold update_file. by rewrite H. Qed.

Lemma update_file_same_registration l g f :
  same_registration f (update_file l g f).
Proof. unfold update_file. by destruct (store f !! l). Qed.

Lemma update_file_byChecksum l g f :
  byChecksum (update_file l g f) = byChecksum f.
Proof. unfold update_file. by destruct (store f !! l). Qed.

Lemma update_file_lookup l g f l' :
  store (update_file l g f) !! l' =
  if decide (l = l') then g <$> store f !! l' else store f !! l'.
Proof.
  unfold update_file. destruct (store f !! l) as [file|] eqn:H; simpl.
  - case_decide as Hl.
    + subst l'. rewrite H. simpl.
      apply list_lookup_insert_eq. by eapply lookup_lt_Some.
    + by apply list_lookup_insert_ne.
  - case_decide as Hl; [|done]. subst l'. by rewrite H.
Qed.

Lemma update_file_twice l g1 g2 f :
  update_file l g2 (update_file l g1 f) = update_file l (g2 ∘ g1) f.
Proof.
  destruct (store f !! l) as [file|] eqn:H.
  - pose proof (lookup_lt_Some _ _ _ H) as Hlt.
    rewrite (update_file_Some l g1 f file H).
    rewrite (update_file_Some l g2 _ (g1 file));
      [|by apply list_lookup_insert_eq].
    rewrite (update_file_Some l _ f file H). simpl.
    unfold with_store. simpl. by rewrite list_insert_insert_eq.
  - by rewrite !(update_file_None l _ f H).
Qed.

Lemma materialize_Some l fc f file :
  store f !! l = Some file →
  materialize l fc f =
  with_store
    (<[l := mkFile (path file) (Content file) (Some (gzip_Write (bytes_of fc)))
              (Some (sha1_Sum (bytes_of fc)))
              (EncodeToString (sha1_Sum (bytes_of fc))) (ContentType file)]>
       (store f)) f.
Proof.
  intros H. unfold materialize. cbv zeta.
  rewrite !update_file_twice. by rewrite (update_file_Some l _ f file H).
Qed.

(** The whole of lines 169 to 186 at once. *)
Lemma finish_Some l fc f file :
  store f !! l = Some file →
  finish l fc f =
  mkAssets (version f) (baseURL f) (preprocessors f) (entries f)
    (<[EncodeToString (sha1_Sum (bytes_of fc)) := l]> (byChecksum f))
    (templateCache f) (templateCacheVersion f) (templateFuncMap f)
    (<[l := mkFile (path file) fc (Some (gzip_Write (bytes_of fc)))
              (Some (sha1_Sum (bytes_of fc)))
              (EncodeToString (sha1_Sum (bytes_of fc))) (ContentType file)]>
       (store f)).
Proof.
  intros H. pose proof (lookup_lt_Some _ _ _ H) as Hlt.
  unfold finish. rewrite (materialize_Some l fc f file H).
  unfold publish. simpl. rewrite list_lookup_insert_eq; [|done]. simpl.
  erewrite update_file_Some; [|simpl; by apply list_lookup_insert_eq].
  unfold with_store. simpl. by rewrite list_insert_insert_eq.
Qed.

Lemma finish_None l fc f : store f !! l = None → finish l fc f = f.
Proof.
  intros H. unfold finish, materialize, publish.
  rewrite !(update_file_None l _ f H). rewrite H.
  by rewrite (update_file_None l _ f H).
Qed.

Lemma finish_same_registration l fc f : same_registration f (finish l fc f).
Proof.
  destruct (store f !! l) as [file|] eqn:H.
  - by rewrite (finish_Some l fc f file H).
  - by rewrite (finish_None l fc f H).
Qed.

Lemma same_registration_refl f : same_registration f f.
Proof. done. Qed.

Lemma same_registration_trans f g h :
  same_registration f g → same_registration g h → same_registration f h.
Proof. unfold same_registration. intuition congruence. Qed.

(** [Get] and its callers change the store and the fingerprint table
    only. *)
Lemma Get_same_registration fuel fs p f :
  same_registration f (Get fuel fs p f).2.
Proof.
  apply (Get_preserves same_registration).
  - apply same_registration_refl.
  - apply same_registration_trans.
  - intros. apply update_file_same_registration.
  - intros l fc f0 f2 _ _ _ H.
    eapply same_registration_trans; [exact H | apply finish_same_registration].
Qed.

End Assignments.

(** ** What every history preserves *)

Section Histories.
Context {lib : GoLib}.
Variable R : Assets → Assets → Prop.
Hypothesis R_refl : ∀ f, R f f.
Hypothesis R_trans : ∀ f g h, R f g → R g h → R f h.
Hypothesis R_type : ∀ l ct f, R f (update_file l (set_ContentType ct) f).
Hypothesis R_finish : ∀ l fc f0 f2 file0,
  store f0 !! l = Some file0 → Content file0 = None →
  R f0 f2 → R f0 (finish l fc f2).
Hypothesis R_AddFile : ∀ file p f, R f (AddFile file p f).
Hypothesis R_preprocessors : ∀ m f, R f (with_preprocessors m f).
Hypothesis R_funcs : ∀ m f, R f (with_templateFuncMap m f).
Hypothesis R_cache : ∀ m f, R f (with_templateCache m f).
Hypothesis R_reset : ∀ f, R f (reset_cache f).

Lemma AddDirectory_preserves walk err p f :
  R f (AddDirectory walk err p f).2.
Proof.
  unfold AddDirectory. cbn [snd]. clear err. revert f.
  induction walk as [|[a rel] rest IH]; intros f; simpl; [apply R_refl|].
  eapply R_trans; [apply R_AddFile | apply IH].
Qed.

Lemma GetTemplate_preserves fuel fs paths f :
  R f (GetTemplate fuel fs paths f).2.
Proof.
  unfold GetTemplate. cbv zeta.
  destruct (templateCache (reset_cache f) !! Join paths "<"); [apply R_reset|].
  match goal with
  | |- context [compile_paths ?g paths ?t ?f1] =>
      pose proof (compile_paths_preserves R R_refl R_trans g paths
                    (Get_preserves R R_refl R_trans R_type R_finish fuel fs)
                    t f1) as H;
      destruct (compile_paths g paths t f1) as [[tmpl|x] f2]
  end; simpl in *.
  - eapply R_trans; [apply R_reset|]. eapply R_trans; [exact H | apply R_cache].
  - eapply R_trans; [apply R_reset | exact H].
Qed.

Lemma step_preserves o f : R f (step o f).
Proof.
  destruct o as [| walk err p | | | | | | | | |]; simpl.
  - apply R_AddFile.
  - apply (AddDirectory_preserves walk err p f).
  - apply R_preprocessors.
  - apply R_preprocessors.
  - apply R_funcs.
  - by apply Get_preserves.
  - by apply GetUrl_preserves.
  - apply R_refl.
  - apply GetTemplate_preserves.
  - by apply template_asset_preserves.
  - by apply template_assetinline_preserves.
Qed.

Lemma run_preserves ops f : R f (run ops f).
Proof.
  revert f. induction ops as [|o rest IH]; intros f; simpl; [apply R_refl|].
  eapply R_trans; [apply step_preserves | apply IH].
Qed.

End Histories.

Section Invariants.
Context {lib : GoLib}.

Lemma set_ContentType_digested ct file :
  (pristine file ∨ digested file) →
  pristine (set_ContentType ct file) ∨ digested (set_ContentType ct file).
Proof. by destruct file. Qed.

Lemma consistency_type l ct f : consistency f (update_file l (set_ContentType ct) f).
Proof.
  intros (Hs & Hb & He). split_and!.
  - intros l' file'. rewrite update_file_lookup. case_decide; [|apply Hs].
    intros (file & Hl' & ->)%fmap_Some.
    apply set_ContentType_digested. by eapply Hs.
  - intros h l'. rewrite update_file_byChecksum. intros Hh.
    destruct (Hb h l' Hh) as (file & Hl & Hd).
    rewrite update_file_lookup. case_decide; [|eauto]. subst l'.
    exists (set_ContentType ct file). split; [|by destruct file].
    apply fmap_Some. eauto.
  - intros p l'. destruct (update_file_same_registration l (set_ContentType ct) f)
      as (_ & _ & _ & -> & _). intros Hp.
    rewrite update_file_lookup. case_decide; [|by eapply He].
    destruct (He p l' Hp) as [file Hl']. apply fmap_is_Some. by eexists.
Qed.

Lemma finish_consistent l fc f : consistency f (finish l fc f).
Proof.
  intros (Hs & Hb & He).
  destruct (store f !! l) as [file|] eqn:H;
    [|by rewrite (finish_None l fc f H)].
  pose proof (lookup_lt_Some _ _ _ H) as Hlt.
  rewrite (finish_Some l fc f file H). split_and!; simpl.
  - intros l' file'. rewrite list_lookup_insert. case_decide as Hd.
    + intros [= <-]. by right.
    + apply Hs.
  - intros h l'. rewrite lookup_insert. case_decide as Hh.
    + intros [= <-]. rewrite list_lookup_insert_eq; [|done].
      by eexists.
    + intros Hl'. destruct (Hb h l' Hl') as (file' & Hf & Hd).
      rewrite list_lookup_insert. case_decide; [|eauto].
      by eexists.
  - intros p l' Hp. apply list_lookup_insert_is_Some. by eapply He.
Qed.

Lemma AddFile_consistent file p f : consistency f (AddFile file p f).
Proof.
  intros (Hs & Hb & He). split_and!; simpl.
  - intros l file' [Hl|[_ Hl]]%lookup_app_Some; [by eapply Hs|].
    apply list_lookup_singleton_Some in Hl as [_ <-]. by left.
  - intros h l Hh. destruct (Hb h l Hh) as (file' & Hl & Hd).
    exists file'. split; [|done]. apply lookup_app_Some. by left.
  - intros q l. rewrite lookup_insert. case_decide.
    + intros [= <-]. apply lookup_lt_is_Some. rewrite length_app. simpl. lia.
    + intros Hq. destruct (He q l Hq) as [file' Hl].
      exists file'. apply lookup_app_Some. by left.
Qed.

Lemma reset_cache_fields f :
  store (reset_cache f) = store f ∧ byChecksum (reset_cache f) = byChecksum f ∧
  entries (reset_cache f) = entries f ∧ version (reset_cache f) = version f ∧
  templateCacheVersion (reset_cache f) = version f ∧
  baseURL (reset_cache f) = baseURL f ∧
  preprocessors (reset_cache f) = preprocessors f ∧
  templateFuncMap (reset_cache f) = templateFuncMap f.
Proof. unfold reset_cache. case_decide as H; simpl; [done|]. by rewrite H. Qed.

(** Every call keeps the registry consistent. *)
Lemma run_consistent ops f : consistent f → consistent (run ops f).
Proof.
  apply (run_preserves consistency); unfold consistency; try done.
  - eauto.
  - apply consistency_type.
  - intros l fc f0 f2 file0 _ _ H12 H0. by apply finish_consistent, H12.
  - apply AddFile_consistent.
  - intros f0. destruct (reset_cache_fields f0) as (Hs & Hb & He & _).
    unfold consistent. by rewrite Hs, Hb, He.
Qed.

Lemma NewAssets_consistent b : consistent (NewAssets b).
Proof. split_and!; intros ??; simpl; by rewrite ?lookup_empty, ?lookup_nil. Qed.

End Invariants.

(** ** The version counter *)

Section Version.
Context {lib : GoLib}.

Lemma wrap_in_range n : in_int_range n → wrap n = n.
Proof.
  unfold in_int_range, wrap, int_min, int_max, int_bits. intros H.
  rewrite Z.mod_small; lia.
Qed.

Lemma wrap_range n : in_int_range (wrap n).
Proof.
  unfold in_int_range, wrap, int_min, int_max, int_bits.
  pose proof (Z.mod_pos_bound (n + 2 ^ (64 - 1)) (2 ^ 64)). lia.
Qed.

Lemma wrap_wrap_add n k : wrap (wrap n + k) = wrap (n + k).
Proof.
  unfold wrap, int_bits.
  replace ((n + 2 ^ (64 - 1)) mod 2 ^ 64 - 2 ^ (64 - 1) + k + 2 ^ (64 - 1))
    with ((n + 2 ^ (64 - 1)) mod 2 ^ 64 + k) by lia.
  rewrite Zplus_mod_idemp_l. do 2 f_equal. lia.
Qed.

Lemma finish_version l fc f : version (finish l fc f) = version f.
Proof. by destruct (finish_same_registration l fc f) as [? _]. Qed.

Lemma update_file_version l g f : version (update_file l g f) = version f.
Proof. by destruct (update_file_same_registration l g f) as [? _]. Qed.

Lemma same_version_trans f g h :
  same_version f g → same_version g h → same_version f h.
Proof. unfold same_version. congruence. Qed.

Lemma same_version_refl f : same_version f f.
Proof. done. Qed.

Lemma same_version_type l ct f :
  same_version f (update_file l (set_ContentType ct) f).
Proof. apply update_file_version. Qed.

Lemma same_version_finish l fc f0 f2 (file0 : File) :
  store f0 !! l = Some file0 → Content file0 = None →
  same_version f0 f2 → same_version f0 (finish l fc f2).
Proof. unfold same_version. intros _ _ <-. apply finish_version. Qed.

Lemma Get_version fuel fs p f : version (Get fuel fs p f).2 = version f.
Proof. by destruct (Get_same_registration fuel fs p f) as [? _]. Qed.

Lemma AddDirectory_version walk err p f :
  in_int_range (version f) →
  version (AddDirectory walk err p f).2 = wrap (version f + Z.of_nat (List.length walk)).
Proof.
  unfold AddDirectory. cbn [snd]. revert f.
  induction walk as [|[a rel] rest IH]; intros f Hf; simpl foldl.
  - rewrite Z.add_0_r. by rewrite wrap_in_range.
  - rewrite IH; [|apply wrap_range]. cbn [version AddFile].
    rewrite wrap_wrap_add. f_equal. simpl List.length. lia.
Qed.

(** One call adds the number of files it registers, and nothing else. *)
Lemma step_version o f :
  in_int_range (version f) →
  version (step o f) = wrap (version f + Z.of_nat (registrations o)).
Proof.
  intros Hf.
  assert (∀ f', same_version f f' → version f' = wrap (version f + Z.of_nat 0)) as Hsame.
  { intros f' ->. rewrite Z.add_0_r. by rewrite wrap_in_range. }
  destruct o as [| walk err p | | | | | | | | |]; cbn [step registrations];
    try (apply Hsame; unfold same_version); try done.
  - by apply AddDirectory_version.
  - apply Get_version.
  - apply (GetUrl_preserves same_version same_version_refl same_version_trans
             same_version_type same_version_finish).
  - apply (GetTemplate_preserves same_version same_version_refl
             same_version_trans same_version_type same_version_finish);
      [done|].
    intros f0. by destruct (reset_cache_fields f0) as (_ & _ & _ & ? & _).
  - apply (template_asset_preserves same_version same_version_refl
             same_version_trans same_version_type same_version_finish).
  - apply (template_assetinline_preserves same_version same_version_refl
             same_version_trans same_version_type same_version_finish).
Qed.

Lemma step_version_range o f :
  in_int_range (version f) → in_int_range (version (step o f)).
Proof. intros Hf. rewrite step_version; [apply wrap_range | done]. Qed.

Lemma run_snoc ops o f : run (ops ++ [o]) f = step o (run ops f).
Proof. unfold run. by rewrite foldl_snoc. Qed.

Lemma registered_snoc ops o :
  registered (ops ++ [o]) = (registered ops + registrations o)%nat.
Proof. induction ops as [|a ops IH]; simpl; [lia|]. rewrite IH. lia. Qed.

Lemma run_version ops f :
  in_int_range (version f) →
  version (run ops f) = wrap (version f + Z.of_nat (registered ops)).
Proof.
  intros Hf. induction ops as [|o ops IH] using rev_ind.
  - simpl. rewrite Z.add_0_r. by rewrite wrap_in_range.
  - rewrite run_snoc, registered_snoc.
    rewrite step_version; [|rewrite IH; apply wrap_range].
    rewrite IH, wrap_wrap_add. f_equal. lia.
Qed.

Lemma NewAssets_version b : version (NewAssets b) = 0.
Proof. done. Qed.

Lemma registered_replicate n file p :
  registered (replicate n (OpAddFile file p)) = n.
Proof. induction n as [|n IH]; simpl; [done|]. by rewrite IH. Qed.

End Version.

(** ** Contents stay, pointers stay *)

Section Stability.
Context {lib : GoLib}.

Lemma keeps_content_refl f : keeps_content f f.
Proof. intros l file c Hl Hc. by exists file. Qed.

Lemma keeps_content_trans f g h :
  keeps_content f g → keeps_content g h → keeps_content f h.
Proof.
  intros Hfg Hgh l file c Hl Hc.
  destruct (Hfg l file c Hl Hc) as (file1 & Hl1 & Hc1 & Hh1 & Hz1).
  destruct (Hgh l file1 c Hl1 Hc1) as (file2 & Hl2 & Hc2 & Hh2 & Hz2).
  exists file2. split_and!; congruence.
Qed.

Lemma keeps_content_store f f' : store f' = store f → keeps_content f f'.
Proof. intros E l file c Hl Hc. exists file. by rewrite E. Qed.

Lemma keeps_content_type l ct f :
  keeps_content f (update_file l (set_ContentType ct) f).
Proof.
  intros l' file c Hl Hc. rewrite update_file_lookup. case_decide.
  - exists (set_ContentType ct file).
    split; [apply fmap_Some; eauto | by destruct file].
  - by exists file.
Qed.

Lemma keeps_content_finish l fc f0 f2 file0 :
  store f0 !! l = Some file0 → Content file0 = None →
  keeps_content f0 f2 → keeps_content f0 (finish l fc f2).
Proof.
  intros H0 Hnil H02 l' file c Hl Hc.
  assert (l ≠ l') as Hne by (intros ->; congruence).
  destruct (H02 l' file c Hl Hc) as (file2 & Hl2 & Hrest).
  exists file2. split; [|done].
  destruct (store f2 !! l) as [file_l|] eqn:H2.
  - rewrite (finish_Some l fc f2 file_l H2). simpl.
    by rewrite list_lookup_insert_ne.
  - by rewrite (finish_None l fc f2 H2).
Qed.

Lemma keeps_content_AddFile file p f : keeps_content f (AddFile file p f).
Proof.
  intros l file' c Hl Hc. exists file'. split; [|done].
  simpl. apply lookup_app_Some. by left.
Qed.

(** A content that a call has left set is never assigned again. *)
Lemma run_keeps_content ops f : keeps_content f (run ops f).
Proof.
  apply (run_preserves keeps_content keeps_content_refl keeps_content_trans
           keeps_content_type keeps_content_finish keeps_content_AddFile).
  - intros m f0. by apply keeps_content_store.
  - intros m f0. by apply keeps_content_store.
  - intros m f0. by apply keeps_content_store.
  - intros f0. apply keeps_content_store.
    by destruct (reset_cache_fields f0) as [? _].
Qed.

Lemma AddDirectory_byChecksum walk err p f :
  byChecksum (AddDirectory walk err p f).2 = byChecksum f.
Proof.
  unfold AddDirectory. cbn [snd]. revert f.
  induction walk as [|[a rel] rest IH]; intros f; simpl; [done|].
  by rewrite IH.
Qed.

(** Only the calls that go through [Get] write the fingerprint table. *)
Lemma step_byChecksum o f :
  calls_Get o = false → byChecksum (step o f) = byChecksum f.
Proof.
  destruct o as [| walk err p | | | | | | | | |]; simpl; try done.
  intros _. apply (AddDirectory_byChecksum walk err p f).
Qed.

Lemma run_published ops f h :
  is_Some (byChecksum (run ops f) !! h) →
  is_Some (byChecksum f !! h) ∨ published_by_Get ops f h.
Proof.
  induction ops as [|o ops IH] using rev_ind; [by left|].
  rewrite run_snoc. intros Hh.
  destruct (byChecksum (run ops f) !! h) as [l|] eqn:Hbefore.
  - destruct IH as [?|(before & o' & after & -> & Ho & Hb & Ha)];
      [by eexists | by left |].
    right. exists before, o', (after ++ [o])%list.
    by rewrite <- app_assoc.
  - right. exists ops, o, []. split_and!; try done.
    + destruct (calls_Get o) eqn:Ho; [done|].
      rewrite step_byChecksum in Hh by done. rewrite Hbefore in Hh.
      by destruct Hh.
    + by rewrite run_snoc.
Qed.

End Stability.

(** ** Serving: the 404 responses *)

Section Serving.
Context {lib : GoLib}.

Lemma run_baseURL ops f : baseURL (run ops f) = baseURL f.
Proof.
  apply (run_preserves same_baseURL); unfold same_baseURL; try done.
  - congruence.
  - intros l ct f0. by destruct (update_file_same_registration l (set_ContentType ct) f0)
      as (_ & ? & _).
  - intros l fc f0 f2 _ _ _ <-.
    by destruct (finish_same_registration l fc f2) as (_ & ? & _).
  - intros f0. by destruct (reset_cache_fields f0) as (_ & _ & _ & _ & _ & ? & _).
Qed.

Lemma httpError_response w code message :
  w_status w = None →
  httpError w code message =
  mkResponse (<["Content-Type" := "text/plain; charset=utf-8"]> (w_header w))
    (Some code) (w_body w +:+ message +:+ newline).
Proof. intros H. unfold httpError, Write, WriteHeader. simpl. by rewrite H. Qed.

(** C1, as amended.  [Serve] answers 404, with the plain-text line
    ["404 - File not found"], when the URL is shorter than [baseURL] or
    when what follows its first [len(baseURL)] bytes is no key of
    [byChecksum]; any other answer is for a fingerprint that a call going
    through [Get] has published.  The bytes of the URL in front of the
    fingerprint are not compared with [baseURL]. *)
Theorem Serve_not_found b ops url w r now :
  let f := run ops (NewAssets b) in
  let checksum := str_drop (String.length b) url in
  (len url < len b ∨ byChecksum f !! checksum = None →
   w_status w = None →
   Serve url w r now f =
   Ok (mkResponse
         (<["Content-Type" := "text/plain; charset=utf-8"]> (w_header w))
         (Some 404) (w_body w +:+ "404 - File not found" +:+ newline))) ∧
  (Serve url w r now f ≠ Ok (httpError w 404 "404 - File not found") →
   len b ≤ len url ∧ published_by_Get ops (NewAssets b) checksum).
Proof.
  intros f checksum. subst f checksum. split.
  - intros Hmiss Hw. unfold Serve. rewrite run_baseURL. cbn [baseURL NewAssets AddPreprocessor with_preprocessors].
    rewrite <- (httpError_response w 404 "404 - File not found" Hw).
    case_decide; [done|]. destruct Hmiss as [? | ->]; [lia | done].
  - unfold Serve. rewrite run_baseURL. cbn [baseURL NewAssets AddPreprocessor with_preprocessors].
    case_decide; [done|].
    destruct (byChecksum _ !! _) as [l|] eqn:Hl; [|done]. intros _.
    split; [lia|].
    destruct (run_published ops (NewAssets b) (str_drop (String.length b) url))
      as [[l' Hl']|?]; [by eexists | | done].
    cbn in Hl'. by rewrite lookup_empty in Hl'.
Qed.

End Serving.

(** To compare the result of a call without normalising the registry
    it leaves. *)
Lemma pair_fst_eq {A B : Type} (x : A * B) (a : A) : x.1 = a → x = (a, x.2).
Proof. destruct x. simpl. by intros ->. Qed.

Lemma Serve_not_found_witness :
  Serve (lib := demo_lib) "/a/0000" new_response None 0
    (run (demo_registration ++ [OpGet 2 demo_fs "/css/logo.png"])
       (NewAssets "/a/")) =
  Ok (mkResponse {["Content-Type" := "text/plain; charset=utf-8"]} (Some 404)
        ("404 - File not found" +:+ newline)).
Proof.
  apply (proj1 (Serve_not_found (lib := demo_lib) "/a/"
                  (demo_registration ++ [OpGet 2 demo_fs "/css/logo.png"])
                  "/a/0000" new_response None 0)).
  - right. vm_compute. reflexivity.
  - reflexivity.
Defined.

(** C1 as it is written fails: a URL of the right length that does not
    begin with [baseURL] is served when its tail is a published
    fingerprint. *)
Lemma Serve_ignores_prefix :
  ¬ (∀ (lib : GoLib) (f : Assets) url w r now,
       HasPrefix url (baseURL f) = false →
       Serve url w r now f = Ok (httpError w 404 "404 - File not found")).
Proof.
  intros H.
  specialize (H demo_lib
                (run (demo_registration ++ [OpGet 2 demo_fs "/css/logo.png"])
                   (NewAssets "/a/"))
                "/b/474e50" new_response None 0 eq_refl).
  vm_compute in H. discriminate H.
Qed.

(** ** The version counter: the claims *)

(** C2, as amended.  A call adds to [version] the number of files it
    registers, one for [AddFile], and no other call changes it, [Get]
    in particular; the counter does not decrease as long as the number
    of registrations stays within Go's [int]. *)
Theorem version_counts_registrations {lib : GoLib} b ops o :
  Z.of_nat (registered (ops ++ [o])) ≤ int_max →
  let f := run ops (NewAssets b) in
  version f = Z.of_nat (registered ops) ∧
  version (step o f) = version f + Z.of_nat (registrations o) ∧
  version f ≤ version (step o f) ∧
  (calls_Get o = true → version (step o f) = version f).
Proof.
  intros Hmax f. subst f. rewrite registered_snoc in Hmax.
  assert (in_int_range (Z.of_nat (registered ops))) as Hr1.
  { unfold in_int_range, int_min, int_max, int_bits in *. lia. }
  assert (in_int_range (Z.of_nat (registered ops) + Z.of_nat (registrations o)))
    as Hr2.
  { unfold in_int_range, int_min, int_max, int_bits in *. lia. }
  assert (version (run ops (NewAssets b)) = Z.of_nat (registered ops)) as Hv.
  { rewrite run_version; [|by vm_compute].
    rewrite NewAssets_version, Z.add_0_l. by apply wrap_in_range. }
  rewrite step_version; [|by rewrite Hv]. rewrite Hv.
  rewrite (wrap_in_range _ Hr2). split_and!; [done | done | lia |].
  intros Ho. destruct o; try done; simpl; lia.
Qed.

Lemma version_counts_registrations_witness :
  version (step (OpGet 2 demo_fs "/css/logo.png") demo_registry) = 4 ∧
  version (step (OpAddFile "x.png" "/x.png") demo_registry) = 5.
Proof.
  split.
  - pose proof (version_counts_registrations (lib := demo_lib) "/a/"
                  demo_registration (OpGet 2 demo_fs "/css/logo.png")) as H.
    destruct H as (Hv & Hs & _); [by vm_compute|].
    unfold demo_registry. rewrite Hs, Hv. reflexivity.
  - pose proof (version_counts_registrations (lib := demo_lib) "/a/"
                  demo_registration (OpAddFile "x.png" "/x.png")) as H.
    destruct H as (Hv & Hs & _); [by vm_compute|].
    unfold demo_registry. rewrite Hs, Hv. reflexivity.
Defined.

(** C2 as it is written fails: after [int_max] registrations one more
    leaves [int_min]. *)
Lemma version_wraps_around :
  ¬ (∀ (lib : GoLib) b ops o,
       version (run ops (NewAssets b)) ≤ version (step o (run ops (NewAssets b)))).
Proof.
  intros H.
  assert (∃ n, Z.of_nat n = int_max) as [n Hn].
  { exists (Z.to_nat int_max). apply Z2Nat.id. by vm_compute. }
  specialize (H demo_lib "/a/" (replicate n (OpAddFile "f" "/f"))
                (OpAddFile "f" "/f")).
  assert (version (run (replicate n (OpAddFile "f" "/f"))
                     (NewAssets (lib := demo_lib) "/a/")) = int_max) as Hv.
  { rewrite run_version by (by vm_compute).
    rewrite registered_replicate, NewAssets_version, Hn. by vm_compute. }
  rewrite step_version in H by (rewrite Hv; by vm_compute).
  rewrite Hv in H. cbn [registrations] in H.
  vm_compute in H. by apply H.
Qed.

(** ** The template functions and the rendering entry point *)

Section TemplateFunctions.
Context {lib : GoLib}.

(** A path that does not begin with the separator, and is not empty, is
    refused with an error. *)
Lemma template_asset_relative fuel fs c rest f :
  c ≠ slash →
  template_asset fuel fs (String c rest) f =
    (Fail (Err "path argument must start with '/'"), f) ∧
  template_assetinline fuel fs (String c rest) f =
    (Fail (Err "path argument must start with '/'"), f).
Proof.
  intros Hc. unfold template_asset, template_assetinline. simpl.
  by rewrite (proj2 (Ascii.eqb_neq c slash) Hc).
Qed.

(** A path that begins with the separator is resolved. *)
Lemma template_asset_rooted fuel fs rest f :
  template_asset fuel fs (String slash rest) f =
    GetUrl fuel fs (String slash rest) f ∧
  template_assetinline fuel fs (String slash rest) f =
    match Get fuel fs (String slash rest) f with
    | (Ok l, f') =>
        match store f' !! l with
        | Some file => (Ok (bytes_of (Content file)), f')
        | None => (Fail nil_dereference, f')
        end
    | (Fail e, f') => (Fail e, f')
    end.
Proof. done. Qed.

(** C9, at the input where the code departs from it: on the empty
    string ["asset"] and ["assetinline"] index the first byte of their
    argument and panic; no error is returned. *)
Theorem template_asset_empty_panics fuel fs f :
  template_asset fuel fs "" f = (Fail (Panic "index out of range"), f) ∧
  template_assetinline fuel fs "" f = (Fail (Panic "index out of range"), f).
Proof. done. Qed.

(** C10.  [RenderTemplate] names the template after the last element of
    the path list: on the empty list the index is out of range, a panic
    and no returned error; on a list that is not empty the index is
    within bounds and the call is [RenderNamedTemplate] with the last
    path. *)
Theorem RenderTemplate_last_path {Data : Type} (ExecuteTemplate : Executor Data)
  fuel fs templatePathArr w data f :
  (templatePathArr = [] →
   RenderTemplate ExecuteTemplate fuel fs templatePathArr w data f =
     (Fail (Panic "index out of range"), w, f)) ∧
  (templatePathArr ≠ [] →
   ∃ name, last templatePathArr = Some name ∧
           last_element templatePathArr = Ok name ∧
           RenderTemplate ExecuteTemplate fuel fs templatePathArr w data f =
           RenderNamedTemplate ExecuteTemplate fuel fs templatePathArr name
             w data f).
Proof.
  split.
  - by intros ->.
  - intros Hne. unfold RenderTemplate, last_element.
    destruct (last templatePathArr) as [name|] eqn:Hlast; [by exists name|].
    by apply last_None in Hlast.
Qed.

End TemplateFunctions.

Lemma RenderTemplate_last_path_witness :
  RenderTemplate (lib := demo_lib) demo_execute 2 demo_fs [] new_response ()
    demo_registry = (Fail (Panic "index out of range"), new_response, demo_registry) ∧
  ∃ name,
    last ["/css/style.css"; "/css/logo.png"] = Some name ∧
    last_element ["/css/style.css"; "/css/logo.png"] = Ok name ∧
    RenderTemplate (lib := demo_lib) demo_execute 2 demo_fs
      ["/css/style.css"; "/css/logo.png"] new_response () demo_registry =
    RenderNamedTemplate demo_execute 2 demo_fs
      ["/css/style.css"; "/css/logo.png"] name new_response () demo_registry.
Proof.
  split.
  - by apply (proj1 (RenderTemplate_last_path (lib := demo_lib) demo_execute 2
                       demo_fs [] new_response () demo_registry)).
  - by apply (proj2 (RenderTemplate_last_path (lib := demo_lib) demo_execute 2
                       demo_fs ["/css/style.css"; "/css/logo.png"]
                       new_response () demo_registry)).
Defined.

(** ** Serving: the negotiation of the encoding *)

Section Negotiation.
Context {lib : GoLib}.




End Negotiation.


(** ** Publication *)

Section Publication.
Context {lib : GoLib}.

Lemma grows_refl f : grows f f.
Proof. done. Qed.

Lemma grows_trans f g h : grows f g → grows g h → grows f h.
Proof. intros [??] [??]. split; eauto. Qed.

Lemma grows_type l ct f : grows f (update_file l (set_ContentType ct) f).
Proof.
  split.
  - intros l' Hl'. rewrite update_file_lookup. case_decide; [|done].
    by apply fmap_is_Some.
  - intros h. by rewrite update_file_byChecksum.
Qed.

Lemma grows_finish l fc f0 f2 (file0 : File) :
  store f0 !! l = Some file0 → Content file0 = None →
  grows f0 f2 → grows f0 (finish l fc f2).
Proof.
  intros _ _ H02. eapply grows_trans; [exact H02|]. clear.
  destruct (store f2 !! l) as [file|] eqn:H2;
    [|by rewrite (finish_None l fc f2 H2)].
  rewrite (finish_Some l fc f2 file H2). split; simpl.
  - intros l'. by rewrite list_lookup_insert_is_Some.
  - intros h Hh. rewrite lookup_insert. by case_decide.
Qed.

Lemma Get_grows fuel fs p f : grows f (Get fuel fs p f).2.
Proof.
  apply (Get_preserves grows grows_refl grows_trans grows_type grows_finish).
Qed.

(** When [Get] reaches line 183 the entry is in [byChecksum] under its
    fingerprint, with its compressed content and digests assigned;
    the content is assigned after that. *)
Lemma Get_publishes_first fuel fs p f0 l fc f1 :
  Get_until_publish (Get fuel fs) fs p f0 = (Ok (l, Some fc), f1) →
  ∃ file1,
    store f1 !! l = Some file1 ∧
    byChecksum f1 !! EncodeToString (sha1_Sum (bytes_of fc)) = Some l ∧
    ContentGZipped file1 = Some (gzip_Write (bytes_of fc)) ∧
    Hash file1 = Some (sha1_Sum (bytes_of fc)) ∧
    HashString file1 = EncodeToString (sha1_Sum (bytes_of fc)) ∧
    Get (S fuel) fs p f0 =
      (Ok l, with_store (<[l := set_Content fc file1]> (store f1)) f1).
Proof.
  intros H. simpl. unfold Get_with. rewrite H.
  unfold Get_until_publish in H.
  destruct (entries f0 !! p) as [l0|]; [|done].
  destruct (store f0 !! l0) as [file0|] eqn:H0; [|done].
  destruct (Content file0); [done|].
  destruct (fs (path file0)) as [raw|e]; [|done].
  match type of H with
  | context [run_preprocessors ?g ?ps p ?c ?f'] =>
      pose proof (run_preprocessors_preserves grows grows_refl grows_trans
                    g ps p (Get_grows fuel fs) c f') as [Hg _];
      destruct (run_preprocessors g ps p c f') as [[fc'|x] f2]; [|done]
  end.
  injection H as -> -> <-. simpl in Hg.
  destruct (Hg l) as [file2 H2].
  { rewrite update_file_lookup, H0. destruct (decide (l = l)); by eexists. }
  rewrite (materialize_Some l fc f2 file2 H2). unfold publish. simpl.
  pose proof (lookup_lt_Some _ _ _ H2) as Hlt.
  rewrite list_lookup_insert_eq by done. simpl.
  eexists. split; [by apply list_lookup_insert_eq|].
  split; [by rewrite lookup_insert_eq|]. split_and!; try done.
  erewrite update_file_Some; [done|]. simpl. by apply list_lookup_insert_eq.
Qed.

Lemma step_keeps_content o f : keeps_content f (step o f).
Proof. apply (run_keeps_content [o] f). Qed.

(** C3, as amended.  Between calls, every entry reachable through
    [byChecksum] has its compressed content, digest and fingerprint
    set, and they are those of the content the entry holds; a content
    that is set is never assigned again by a later call.  Within
    [Get] the entry is entered in [byChecksum] once these fields are
    assigned, and the content is assigned after that, last. *)
Theorem published_entries_digested b ops :
  let f := run ops (NewAssets b) in
  (∀ h l, byChecksum f !! h = Some l →
          ∃ file, store f !! l = Some file ∧ digested file) ∧
  (∀ o l file c, store f !! l = Some file → Content file = Some c →
                 ∃ file', store (step o f) !! l = Some file' ∧
                          Content file' = Some c ∧
                          HashString file' = HashString file ∧
                          ContentGZipped file' = ContentGZipped file) ∧
  (∀ fuel fs p l fc f1,
     Get_until_publish (Get fuel fs) fs p f = (Ok (l, Some fc), f1) →
     ∃ file1,
       store f1 !! l = Some file1 ∧
       byChecksum f1 !! EncodeToString (sha1_Sum (bytes_of fc)) = Some l ∧
       ContentGZipped file1 = Some (gzip_Write (bytes_of fc)) ∧
       Hash file1 = Some (sha1_Sum (bytes_of fc)) ∧
       HashString file1 = EncodeToString (sha1_Sum (bytes_of fc)) ∧
       Get (S fuel) fs p f =
         (Ok l, with_store (<[l := set_Content fc file1]> (store f1)) f1)).
Proof.
  intros f. split_and!.
  - by destruct (run_consistent ops (NewAssets b) (NewAssets_consistent b))
      as (_ & ? & _).
  - intros o. apply step_keeps_content.
  - intros fuel fs p l fc f1. apply Get_publishes_first.
Qed.

End Publication.

Lemma published_entries_digested_witness :
  ∃ file1,
    store (Get_until_publish (lib := demo_lib) (Get 1 demo_fs) demo_fs
             "/css/logo.png" demo_registry).2 !! 1%nat = Some file1 ∧
    ContentGZipped file1 = Some "gz:PNG" ∧ HashString file1 = "474e50".
Proof.
  destruct (proj2 (proj2 (published_entries_digested (lib := demo_lib) "/a/"
                            demo_registration))
              1%nat demo_fs "/css/logo.png" 1%nat (Some "PNG")
              (Get_until_publish (Get 1 demo_fs) demo_fs "/css/logo.png"
                 demo_registry).2)
    as (file1 & H1 & _ & Hz & _ & Hh & _).
  - apply pair_fst_eq. vm_compute. reflexivity.
  - exists file1. split; [exact H1|]. by rewrite Hz, Hh.
Defined.

(** C3 as it is written fails: when [Get] has entered the entry in
    [byChecksum] its content is still unset. *)
Lemma published_before_content :
  ¬ (∀ (lib : GoLib) fuel fs p (f : Assets) l fc f1,
       Get_until_publish (Get fuel fs) fs p f = (Ok (l, Some fc), f1) →
       ∀ h l' file, byChecksum f1 !! h = Some l' →
                    store f1 !! l' = Some file → Content file ≠ None).
Proof.
  intros H.
  specialize (H demo_lib 1%nat demo_fs "/css/logo.png" demo_registry 1%nat
                (Some "PNG")
                (Get_until_publish (Get 1 demo_fs) demo_fs "/css/logo.png"
                   demo_registry).2).
  apply (H ltac:(apply pair_fst_eq; vm_compute; reflexivity) "474e50" 1%nat
           (mkFile "static/css/logo.png" None (Some "gz:PNG") (Some "GNP")
              "474e50" "image/png")).
  - vm_compute. reflexivity.
  - vm_compute. reflexivity.
  - reflexivity.
Qed.

(** ** Resolving twice *)

Section Idempotence.
Context {lib : GoLib}.

Lemma Get_Ok_entries fuel fs p f l f' :
  Get fuel fs p f = (Ok l, f') → entries f !! p = Some l.
Proof.
  destruct fuel as [|n]; [done|]. simpl. unfold Get_with, Get_until_publish.
  destruct (entries f !! p) as [l0|]; [|done].
  destruct (store f !! l0) as [file|]; [|done].
  destruct (Content file); [by intros [= ->]|].
  destruct (fs (path file)); [|done].
  destruct (run_preprocessors _ _ _ _ _) as [[fc|x] f2]; [|done].
  by intros [= ->].
Qed.

Lemma Get_entries fuel fs p f : entries (Get fuel fs p f).2 = entries f.
Proof. by destruct (Get_same_registration fuel fs p f) as (_ & _ & _ & ? & _). Qed.

(** An entry whose content is set is returned as it is, whatever the
    file system holds by then. *)
Lemma Get_materialized fuel fs p f l file c :
  entries f !! p = Some l → store f !! l = Some file → Content file = Some c →
  Get (S fuel) fs p f = (Ok l, f).
Proof.
  intros Hp Hl Hc. simpl. unfold Get_with, Get_until_publish.
  by rewrite Hp, Hl, Hc.
Qed.

(** When the first call leaves a content that is set, the fingerprint is
    the digest of that content and a second call returns the same entry
    and changes nothing. *)
Lemma Get_twice fuel fs p f l f1 file1 c :
  consistent f →
  Get fuel fs p f = (Ok l, f1) →
  store f1 !! l = Some file1 → Content file1 = Some c →
  HashString file1 = EncodeToString (sha1_Sum c) ∧
  ∀ fuel' fs', Get (S fuel') fs' p f1 = (Ok l, f1).
Proof.
  intros Hf HGet Hl Hc. split.
  - pose proof (Get_preserves consistency) as HP.
    assert (consistent f1) as (Hs & _).
    { change f1 with (Ok l, f1).2. rewrite <- HGet.
      apply (Get_preserves consistency); unfold consistency; eauto.
      - apply consistency_type.
      - intros l0 fc f0 f2 file0 _ _ H02 H0. by apply finish_consistent, H02. }
    destruct (Hs l file1 Hl) as [[Hnil _]|(_ & _ & Hh)]; [congruence|].
    by rewrite Hh, Hc.
  - intros fuel' fs'. eapply Get_materialized; [|done..].
    pose proof (Get_entries fuel fs p f) as He. rewrite HGet in He.
    simpl in He. rewrite He. by eapply Get_Ok_entries.
Qed.

(** The built-in rewriters leave the nil slice for a content of no
    bytes. *)
Lemma replaceProcessor_empty get p content re prefix postfix f :
  bytes_of content = "" →
  replaceProcessor get p content re prefix postfix f = (Ok None, f).
Proof. intros H. unfold replaceProcessor. by rewrite H. Qed.

(** An empty file under the built-in rewriters: [Get] succeeds, enters
    the entry in [byChecksum] and leaves its content unset. *)
Lemma Get_empty_style_sheet fuel fs p f l file :
  entries f !! p = Some l → store f !! l = Some file → Content file = None →
  fs (path file) = inl "" →
  preprocessors f !! Ext (path file) =
    Some [AssetCssPreprocessor; AssetSourceMapPreprocessor] →
  ∃ f' file',
    Get (S fuel) fs p f = (Ok l, f') ∧ store f' !! l = Some file' ∧
    Content file' = None ∧
    byChecksum f' !! EncodeToString (sha1_Sum "") = Some l.
Proof.
  intros Hp Hl Hc Hfs Hpre. simpl. unfold Get_with, Get_until_publish.
  rewrite Hp, Hl, Hc, Hfs.
  destruct (update_file_same_registration l
              (set_ContentType
                 (if decide (TypeByExtension (Ext (path file)) = "")
                  then DetectContentType ""
                  else TypeByExtension (Ext (path file)))) f)
    as (_ & _ & -> & _).
  rewrite Hpre. unfold default.
  cbn [from_option id run_preprocessors run_preprocessor].
  rewrite !replaceProcessor_empty by done.
  match goal with
  | |- context [publish l (materialize l None ?f1)] =>
      assert (is_Some (store f1 !! l)) as [file1 H1]
        by (rewrite update_file_lookup, Hl; destruct (decide (l = l)); by eexists);
      change (update_file l (set_Content None) (publish l (materialize l None f1)))
        with (finish l None f1);
      rewrite (finish_Some l None f1 file1 H1)
  end.
  pose proof (lookup_lt_Some _ _ _ H1) as Hlt.
  eexists _, _. split; [done|]. simpl.
  split; [by apply list_lookup_insert_eq|]. split; [done|].
  by rewrite lookup_insert_eq.
Qed.

End Idempotence.

(** C4, at the input where the code departs from it.  The built-in
    rewriters leave the nil slice for an empty style sheet, so line 186
    assigns nil and [file.Content == nil] still holds: the entry is
    published with its content unset and the next [Get] reads the file
    again.  Once the file has been written, the same path, never
    registered again, has another fingerprint. *)
Theorem Get_empty_css_twice :
  let first := Get (lib := demo_lib) 2 demo_fs "/css/empty.css" demo_registry in
  let second := Get 2 demo_fs_rewritten "/css/empty.css" first.2 in
  first.1 = Ok 2%nat ∧
  store first.2 !! 2%nat =
    Some (mkFile "static/css/empty.css" None (Some "gz:") (Some "") ""
            "text/css; charset=utf-8") ∧
  byChecksum first.2 !! "" = Some 2%nat ∧
  second.1 = Ok 2%nat ∧
  store second.2 !! 2%nat =
    Some (mkFile "static/css/empty.css" (Some "b{}") (Some "gz:b{}")
            (Some "}{b") "7d7b62" "text/css; charset=utf-8").
Proof. vm_compute. done. Qed.

(** The same with a preprocessor of the caller's that returns
    [(nil, nil)]. *)
Lemma Get_nil_content_twice :
  let f := AddFile "notes.txt" "/notes.txt"
             (AddPreprocessor ".txt" (PurePreprocessor (λ _ _, Ok None))
                (NewAssets (lib := demo_lib) "/a/")) in
  let fs : FileSystem := λ _, inl "draft" in
  let first := Get 1 fs "/notes.txt" f in
  let second := Get 1 fs "/notes.txt" (ClearPreprocessors ".txt" first.2) in
  first.1 = Ok 0%nat ∧
  (Content <$> store first.2 !! 0%nat) = Some None ∧
  byChecksum first.2 !! "" = Some 0%nat ∧
  second.1 = Ok 0%nat ∧
  (Content <$> store second.2 !! 0%nat) = Some (Some "draft").
Proof. vm_compute. done. Qed.

(** ** The reference rewriter *)

Section Rewriter.
Context {lib : GoLib}.

(** A reference that is not empty: as it is when it begins with the
    separator, joined to the directory of the virtual path otherwise. *)
Lemma getRooted_rooted fromFile rest :
  getRooted fromFile (String slash rest) = Ok (String slash rest).
Proof. done. Qed.

Lemma getRooted_relative fromFile c rest :
  c ≠ slash →
  getRooted fromFile (String c rest) =
  Ok (filepath_Join (Dir fromFile) (String c rest)).
Proof.
  intros Hc. unfold getRooted. simpl.
  by rewrite (proj2 (Ascii.eqb_neq c slash) Hc).
Qed.

(** A match whose reference resolves is replaced by the prefix, the
    public URL and the postfix. *)
Lemma replace_match_resolved get p prefix postfix m ref rooted url e f f' :
  str_slice (len prefix) (len m - len postfix) m = Some ref →
  getRooted p (TrimSpace ref) = Ok rooted →
  GetUrl_with get rooted f = (Ok url, f') →
  replace_match get p prefix postfix m e f =
    (Ok (prefix +:+ url +:+ postfix), e, f').
Proof. intros Hs Hr Hu. unfold replace_match. by rewrite Hs, Hr, Hu. Qed.

(** A match whose reference is blank makes [getRooted] index an empty
    string. *)
Lemma replace_match_blank get p e f :
  replace_match get p "url(" ")" "url( )" e f =
    (Fail (Panic "index out of range"), e, f).
Proof. done. Qed.

End Rewriter.

(** The style sheet [/css/style.css] refers to [./logo.png]: the
    reference becomes the public URL of [/css/logo.png]. *)
Lemma style_sheet_rewritten :
  let f := (Get (lib := demo_lib) 2 demo_fs "/css/style.css" demo_registry).2 in
  getRooted "/css/style.css" "./logo.png" = Ok "/css/logo.png" ∧
  (HashString <$> store f !! 1%nat) = Some "474e50" ∧
  (Content <$> store f !! 0%nat) = Some (Some "a{background:url(/a/474e50)}") ∧
  Contains "a{background:url(/a/474e50)}" ("url(" +:+ "/a/" +:+ "474e50" +:+ ")")
    = true ∧
  Contains "a{background:url(/a/474e50)}" "./logo.png" = false.
Proof. vm_compute. done. Qed.

(** C7, at the input where the code departs from it.  The reference of
    [url( )] is the empty string once trimmed; [getRooted] indexes its
    first byte and panics, and so does [Get] on a style sheet that
    contains it. *)
Theorem Get_blank_reference_panics :
  getRooted "/css/blank.css" (TrimSpace " ") = Fail (Panic "index out of range") ∧
  (Get (lib := demo_lib) 2 demo_fs "/css/blank.css" demo_registry).1 =
    Fail (Panic "index out of range").
Proof. vm_compute. done. Qed.

(** ** Compiling templates *)

Section Compilation.
Context {lib : GoLib}.

(** The loop over [temp.Templates()] adds the names that are not there
    yet, whatever the order of the list. *)
Lemma add_templates_list temp tmpl n :
  Lookup (add_templates temp tmpl) n =
  match Lookup tmpl n with
  | Some t => Some t
  | None => Some <$> (list_to_map temp : gmap string Tree) !! n
  end.
Proof.
  revert tmpl. induction temp as [|[k v] rest IH]; intros tmpl.
  - simpl. rewrite lookup_empty. by destruct (Lookup tmpl n).
  - unfold add_templates in *. simpl foldl. rewrite IH. clear IH.
    unfold Lookup. simpl list_to_map.
    destruct (tmpl_set tmpl !! k) as [tk|] eqn:Hk.
    + destruct (tmpl_set tmpl !! n) as [tn|] eqn:Hn; [done|].
      rewrite lookup_insert_ne; [done|]. intros ->. congruence.
    + simpl. rewrite !lookup_insert. case_decide as Hkn; [|done].
      subst k. by rewrite Hk.
Qed.

Lemma add_templates_lookup (u : gmap string Tree) tmpl n :
  Lookup (add_templates (map_to_list u) tmpl) n =
  match Lookup tmpl n with
  | Some t => Some t
  | None => Some <$> u !! n
  end.
Proof. rewrite add_templates_list. by rewrite list_to_map_to_list. Qed.

Lemma compile_paths_same_registration get paths tmpl f :
  (∀ p f0, same_registration f0 (get p f0).2) →
  same_registration f (compile_paths get paths tmpl f).2.
Proof.
  intros Hget.
  by apply (compile_paths_preserves same_registration same_registration_refl
              same_registration_trans).
Qed.

(** Two paths that resolve and parse: the first one gives the template
    of every name it defines. *)
Lemma compile_pair fuel fs P Q f fP fPQ uP uQ n tP funcs :
  P ≠ "" → Q ≠ "" → n ≠ shell_name →
  unit_of fuel fs P f fP uP → unit_of fuel fs Q fP fPQ uQ →
  uP !! n = Some tP →
  ∃ t, compile_paths (Get fuel fs) [P; Q] (template_New shell_name funcs) f =
         (Ok t, fPQ) ∧
       Lookup t n = Some (Some tP).
Proof.
  intros HP HQ Hn (lP & fileP & HgP & HsP & HuP) (lQ & fileQ & HgQ & HsQ & HuQ) Ht.
  cbn [compile_paths].
  destruct (decide (P = "")) as [|_]; [done|]. rewrite HgP, HsP, HuP.
  destruct (decide (Q = "")) as [|_]; [done|]. rewrite HgQ, HsQ, HuQ.
  eexists. split; [done|].
  rewrite !add_templates_lookup. unfold Lookup, template_New. simpl.
  rewrite lookup_singleton_ne by done. by rewrite Ht.
Qed.

(** C5.  The loop over the templates of a unit adds a name only if the
    merged namespace does not have it.  So when [A] and [B] both define
    a template of some name, ["header"] say, compiling [A, B] gives the
    definition of [A] and compiling [B, A] gives that of [B]. *)
Theorem first_template_wins fuel fs f A B n :
  let f1 := reset_cache f in
  (∀ (u : gmap string Tree) tmpl m,
     Lookup (add_templates (map_to_list u) tmpl) m =
     match Lookup tmpl m with
     | Some t => Some t
     | None => Some <$> u !! m
     end) ∧
  (A ≠ "" → B ≠ "" → n ≠ shell_name →
   ∀ fA fAB uA uB tA,
     templateCache f1 !! Join [A; B] "<" = None →
     unit_of fuel fs A f1 fA uA → unit_of fuel fs B fA fAB uB →
     uA !! n = Some tA → is_Some (uB !! n) →
     ∃ t f', GetTemplate fuel fs [A; B] f = (Ok t, f') ∧
             Lookup t n = Some (Some tA)) ∧
  (A ≠ "" → B ≠ "" → n ≠ shell_name →
   ∀ fB fBA uB uA tB,
     templateCache f1 !! Join [B; A] "<" = None →
     unit_of fuel fs B f1 fB uB → unit_of fuel fs A fB fBA uA →
     uB !! n = Some tB → is_Some (uA !! n) →
     ∃ t f', GetTemplate fuel fs [B; A] f = (Ok t, f') ∧
             Lookup t n = Some (Some tB)).
Proof.
  intros f1. subst f1. split_and!.
  - apply add_templates_lookup.
  - intros HA HB Hn fA fAB uA uB tA Hmiss HuA HuB HtA _.
    destruct (compile_pair fuel fs A B _ fA fAB uA uB n tA
                (templateFuncMap (reset_cache f)) HA HB Hn HuA HuB HtA)
      as (t & Hc & Ht).
    unfold GetTemplate. cbv zeta. rewrite Hmiss, Hc. by eexists _, _.
  - intros HA HB Hn fB fBA uB uA tB Hmiss HuB HuA HtB _.
    destruct (compile_pair fuel fs B A _ fB fBA uB uA n tB
                (templateFuncMap (reset_cache f)) HB HA Hn HuB HuA HtB)
      as (t & Hc & Ht).
    unfold GetTemplate. cbv zeta. rewrite Hmiss, Hc. by eexists _, _.
Qed.

End Compilation.

Lemma first_template_wins_witness :
  (∃ t f', GetTemplate (lib := demo_lib) 1 demo_fs ["/a.html"; "/b.html"]
             demo_templates = (Ok t, f') ∧
           Lookup t "header" = Some (Some "header of /a.html")) ∧
  (∃ t f', GetTemplate (lib := demo_lib) 1 demo_fs ["/b.html"; "/a.html"]
             demo_templates = (Ok t, f') ∧
           Lookup t "header" = Some (Some "header of /b.html")).
Proof.
  destruct (first_template_wins (lib := demo_lib) 1 demo_fs demo_templates
              "/a.html" "/b.html" "header") as (_ & HAB & HBA).
  assert (∀ p (f f' : @Assets demo_lib) l (file : File) (u : gmap string string),
            (Get 1 demo_fs p f).1 = Ok l → f' = (Get 1 demo_fs p f).2 →
            store (Get 1 demo_fs p f).2 !! l = Some file →
            bool_decide
              (@Parse demo_lib p (templateFuncMap (Get 1 demo_fs p f).2)
                 (bytes_of (Content file)) = inl u) = true →
            unit_of 1 demo_fs p f f' u) as Hunit.
  { intros p f f' l file u HG -> Hl HP. exists l, file.
    split; [by apply pair_fst_eq|]. split; [done|].
    by apply bool_decide_eq_true_1 in HP. }
  pose (fileA := mkFile "tpl/a.html" (Some "{{define header}}A")
                   (Some "gz:{{define header}}A") (Some "A}}redaeh enifed{{")
                   "417d7d72656461656820656e696665647b7b"
                   "text/plain; charset=utf-8").
  pose (fileB := mkFile "tpl/b.html" (Some "{{define header}}B")
                   (Some "gz:{{define header}}B") (Some "B}}redaeh enifed{{")
                   "427d7d72656461656820656e696665647b7b"
                   "text/plain; charset=utf-8").
  split.
  - apply (HAB ltac:(done) ltac:(done) ltac:(done)
             (Get 1 demo_fs "/a.html" (reset_cache demo_templates)).2
             (Get 1 demo_fs "/b.html"
                (Get 1 demo_fs "/a.html" (reset_cache demo_templates)).2).2
             (demo_unit "/a.html" "{{define header}}A")
             (demo_unit "/b.html" "{{define header}}B")
             "header of /a.html").
    + vm_compute. reflexivity.
    + apply (Hunit _ _ _ 0%nat fileA); [..|reflexivity| |]; vm_compute; reflexivity.
    + apply (Hunit _ _ _ 1%nat fileB); [..|reflexivity| |]; vm_compute; reflexivity.
    + vm_compute. reflexivity.
    + eexists. vm_compute. reflexivity.
  - apply (HBA ltac:(done) ltac:(done) ltac:(done)
             (Get 1 demo_fs "/b.html" (reset_cache demo_templates)).2
             (Get 1 demo_fs "/a.html"
                (Get 1 demo_fs "/b.html" (reset_cache demo_templates)).2).2
             (demo_unit "/b.html" "{{define header}}B")
             (demo_unit "/a.html" "{{define header}}A")
             "header of /b.html").
    + vm_compute. reflexivity.
    + apply (Hunit _ _ _ 1%nat fileB); [..|reflexivity| |]; vm_compute; reflexivity.
    + apply (Hunit _ _ _ 0%nat fileA); [..|reflexivity| |]; vm_compute; reflexivity.
    + vm_compute. reflexivity.
    + eexists. vm_compute. reflexivity.
Defined.

(** ** The template cache *)

Section Cache.
Context {lib : GoLib}.

Lemma reset_cache_stale f :
  version f ≠ templateCacheVersion f →
  reset_cache f =
  mkAssets (version f) (baseURL f) (preprocessors f) (entries f)
    (byChecksum f) ∅ (version f) (templateFuncMap f) (store f).
Proof. intros H. unfold reset_cache. by rewrite decide_True. Qed.

Lemma reset_cache_fresh f :
  version f = templateCacheVersion f → reset_cache f = f.
Proof. intros H. unfold reset_cache. by rewrite decide_False by (by intros ?). Qed.

(** What [GetTemplate] leaves: the same version, the cache stamped with
    it, and the cache it started from, after the reset, with at most
    the key of this call added. *)
Lemma GetTemplate_cache fuel fs paths f :
  let f' := (GetTemplate fuel fs paths f).2 in
  version f' = version f ∧ templateCacheVersion f' = version f ∧
  ∀ k, k ≠ Join paths "<" →
       templateCache f' !! k = templateCache (reset_cache f) !! k.
Proof.
  unfold GetTemplate. cbv zeta.
  destruct (reset_cache_fields f) as (_ & _ & _ & Hv & Hs & _).
  destruct (templateCache (reset_cache f) !! Join paths "<"); [done|].
  match goal with
  | |- context [compile_paths ?g paths ?t ?f1] =>
      pose proof (compile_paths_same_registration g paths t f1
                    (Get_same_registration fuel fs))
        as (Hv' & _ & _ & _ & Hc' & Hs' & _);
      destruct (compile_paths g paths t f1) as [[tmpl|x] f2]
  end; simpl in *.
  - split_and!; [congruence.. |]. intros k Hk.
    rewrite lookup_insert_ne by done. by rewrite Hc'.
  - split_and!; [congruence.. |]. intros k Hk. by rewrite Hc'.
Qed.

Lemma wrap_add_ne n k :
  in_int_range n → 0 < k < 2 ^ int_bits → wrap (n + k) ≠ n.
Proof.
  unfold in_int_range, wrap, int_min, int_max, int_bits. intros Hn Hk Heq.
  pose proof (Z.div_mod (n + k + 2 ^ (64 - 1)) (2 ^ 64) ltac:(lia)) as Hdiv.
  lia.
Qed.

Lemma AddDirectory_stamp walk err p f :
  templateCacheVersion (AddDirectory walk err p f).2 = templateCacheVersion f.
Proof.
  unfold AddDirectory. cbn [snd]. revert f.
  induction walk as [|[a rel] rest IH]; intros f; simpl; [done|].
  by rewrite IH.
Qed.

(** C6.  When [version] differs from the stamp of the cache,
    [GetTemplate] does not look at what the cache holds: its result is
    the same for any cache, and it leaves the cache stamped with the
    version and holding no other key than that of the call.  When they
    agree and the key is in the cache, the cached template is returned
    and nothing changes.  After [GetTemplate], a registration, or any
    number of them below [2 ^ int_bits], makes them differ. *)
Theorem cache_invalidation fuel fs templatePathArr f :
  (version f ≠ templateCacheVersion f →
   (∀ cache, GetTemplate fuel fs templatePathArr (with_templateCache cache f) =
             GetTemplate fuel fs templatePathArr f) ∧
   let f' := (GetTemplate fuel fs templatePathArr f).2 in
   templateCacheVersion f' = version f' ∧
   ∀ k, k ≠ Join templatePathArr "<" → templateCache f' !! k = None) ∧
  (version f = templateCacheVersion f →
   ∀ tmpl, templateCache f !! Join templatePathArr "<" = Some tmpl →
           GetTemplate fuel fs templatePathArr f = (Ok tmpl, f)) ∧
  (in_int_range (version f) →
   (∀ file p,
      let f1 := AddFile file p (GetTemplate fuel fs templatePathArr f).2 in
      version f1 ≠ templateCacheVersion f1) ∧
   (∀ walk err p,
      walk ≠ [] → Z.of_nat (List.length walk) < 2 ^ int_bits →
      let f1 := (AddDirectory walk err p
                   (GetTemplate fuel fs templatePathArr f).2).2 in
      version f1 ≠ templateCacheVersion f1)).
Proof.
  split_and!.
  - intros Hstale. split.
    + intros cache. unfold GetTemplate.
      by rewrite !reset_cache_stale by done.
    + destruct (GetTemplate_cache fuel fs templatePathArr f) as (Hv & Hs & Hc).
      cbv zeta. split; [congruence|]. intros k Hk. rewrite Hc by done.
      by rewrite reset_cache_stale.
  - intros Hfresh tmpl Hhit. unfold GetTemplate. cbv zeta.
    rewrite reset_cache_fresh by done. by rewrite Hhit.
  - intros Hrange.
    destruct (GetTemplate_cache fuel fs templatePathArr f) as (Hv & Hs & _).
    cbv zeta in *. split.
    + intros file p. simpl. rewrite Hv, Hs. apply wrap_add_ne; [done|].
      by vm_compute.
    + intros walk err p Hwalk Hlen.
      rewrite AddDirectory_version by (by rewrite Hv).
      rewrite AddDirectory_stamp, Hv, Hs. apply wrap_add_ne; [done|].
      split; [|done]. destruct walk; [done|]. simpl List.length. lia.
Qed.

Lemma is_Ok_true {A : Type} (o : outcome A) : is_Ok o = true → ∃ a, o = Ok a.
Proof. destruct o as [a|e]; [by exists a | done]. Qed.

(** A template that [GetTemplate] returns is in the cache under the key
    of the call, and the cache is stamped with the version. *)
Lemma GetTemplate_Ok_cached fuel fs paths f tmpl f' :
  GetTemplate fuel fs paths f = (Ok tmpl, f') →
  version f' = version f ∧ templateCacheVersion f' = version f' ∧
  templateCache f' !! Join paths "<" = Some tmpl.
Proof.
  intros H.
  pose proof (GetTemplate_cache fuel fs paths f) as (Hv & Hs & _).
  rewrite H in Hv, Hs. simpl in Hv, Hs.
  split; [done|]. split; [congruence|].
  unfold GetTemplate in H. cbv zeta in H.
  destruct (templateCache (reset_cache f) !! Join paths "<") as [t|] eqn:Hc.
  - by injection H as <- <-.
  - destruct (compile_paths _ _ _ _) as [[t|e] f2]; [|done].
    injection H as <- <-. simpl. apply lookup_insert_eq.
Qed.

End Cache.

Lemma cache_invalidation_witness :
  let f := (GetTemplate (lib := demo_lib) 1 demo_fs ["/a.html"] demo_templates).2 in
  let f1 := AddFile "static/css/logo.png" "/logo.png" f in
  (∃ tmpl, GetTemplate 1 demo_fs ["/a.html"] f = (Ok tmpl, f)) ∧
  version f1 ≠ templateCacheVersion f1 ∧
  (∀ cache, GetTemplate 1 demo_fs ["/a.html"] (with_templateCache cache f1) =
            GetTemplate 1 demo_fs ["/a.html"] f1) ∧
  templateCacheVersion (GetTemplate 1 demo_fs ["/a.html"] f1).2 = 3.
Proof.
  cbv zeta.
  destruct (cache_invalidation (lib := demo_lib) 1 demo_fs ["/a.html"]
              demo_templates) as (_ & _ & Hadd).
  specialize (Hadd ltac:(by vm_compute)) as [Hadd _].
  specialize (Hadd "static/css/logo.png" "/logo.png"). cbv zeta in Hadd.
  assert (is_Ok (GetTemplate (lib := demo_lib) 1 demo_fs ["/a.html"]
                   demo_templates).1 = true) as Hok
    by (vm_compute; reflexivity).
  apply is_Ok_true in Hok as [tmpl Hok].
  destruct (GetTemplate 1 demo_fs ["/a.html"] demo_templates) as [r f] eqn:HG.
  simpl in Hok. subst r. cbn [snd] in *.
  destruct (GetTemplate_Ok_cached _ _ _ _ _ _ HG) as (Hv & Hs & Hc).
  destruct (cache_invalidation (lib := demo_lib) 1 demo_fs ["/a.html"] f)
    as (_ & Hhit & _).
  destruct (cache_invalidation (lib := demo_lib) 1 demo_fs ["/a.html"]
              (AddFile "static/css/logo.png" "/logo.png" f))
    as (Hstale & _ & _).
  destruct (Hstale Hadd) as (Hany & Hstamp & _). cbv zeta in Hstamp.
  split; [|split; [exact Hadd|split; [exact Hany|]]].
  - exists tmpl. apply Hhit; [by rewrite Hs | exact Hc].
  - rewrite Hstamp.
    destruct (GetTemplate_cache 1 demo_fs ["/a.html"]
                (AddFile "static/css/logo.png" "/logo.png" f)) as (Hv1 & _).
    cbv zeta in Hv1. rewrite Hv1. cbn [version AddFile]. rewrite Hv.
    vm_compute. reflexivity.
Defined.

(** ** Further properties: resolving what was, and was not, registered *)

Section Resolution.
Context {lib : GoLib}.

Lemma same_entries_refl f : same_entries f f.
Proof. done. Qed.

Lemma same_entries_trans f g h :
  same_entries f g → same_entries g h → same_entries f h.
Proof. unfold same_entries. congruence. Qed.

Lemma same_entries_type l ct f :
  same_entries f (update_file l (set_ContentType ct) f).
Proof. by destruct (update_file_same_registration l (set_ContentType ct) f)
         as (_ & _ & _ & ? & _). Qed.

Lemma same_entries_finish l fc f0 f2 (file0 : File) :
  store f0 !! l = Some file0 → Content file0 = None →
  same_entries f0 f2 → same_entries f0 (finish l fc f2).
Proof.
  unfold same_entries. intros _ _ <-.
  by destruct (finish_same_registration l fc f2) as (_ & _ & _ & ? & _).
Qed.

Lemma AddDirectory_entries_other walk err virtualPath f p :
  (∀ a rel, (a, rel) ∈ walk → virtualPath +:+ rel ≠ p) →
  entries (AddDirectory walk err virtualPath f).2 !! p = entries f !! p.
Proof.
  unfold AddDirectory. cbn [snd]. revert f.
  induction walk as [|[a rel] rest IH]; intros f Hp; simpl; [done|].
  rewrite IH.
  - simpl. apply lookup_insert_ne. apply (Hp a rel). apply elem_of_cons. by left.
  - intros a' rel' Hin. apply (Hp a' rel'). apply elem_of_cons. by right.
Qed.

(** A call that does not register [p] leaves what [p] resolves to. *)
Lemma step_entries_other o f p :
  ¬ registers o p → entries (step o f) !! p = entries f !! p.
Proof.
  intros Hp.
  destruct o as [file q | walk err vp | | | | | | | | |]; cbn [step]; try done.
  - simpl. apply lookup_insert_ne. intros ->. by apply Hp.
  - apply AddDirectory_entries_other. intros a rel Hin Heq. apply Hp.
    by exists a, rel.
  - by rewrite Get_entries.
  - f_equal. apply (GetUrl_preserves same_entries same_entries_refl
                      same_entries_trans same_entries_type same_entries_finish).
  - f_equal. apply (GetTemplate_preserves same_entries same_entries_refl
                      same_entries_trans same_entries_type same_entries_finish);
      [done|].
    intros f0. by destruct (reset_cache_fields f0) as (_ & _ & ? & _).
  - f_equal. apply (template_asset_preserves same_entries same_entries_refl
                      same_entries_trans same_entries_type same_entries_finish).
  - f_equal. apply (template_assetinline_preserves same_entries
                      same_entries_refl same_entries_trans same_entries_type
                      same_entries_finish).
Qed.

Lemma run_entries_other ops f p :
  (∀ o, o ∈ ops → ¬ registers o p) →
  entries (run ops f) !! p = entries f !! p.
Proof.
  induction ops as [|o ops IH] using rev_ind; intros Hp; [done|].
  rewrite run_snoc, step_entries_other.
  - apply IH. intros o' Hin. apply Hp. apply elem_of_app. by left.
  - apply Hp. apply elem_of_app. right. apply elem_of_cons. by left.
Qed.

(** X1.  A virtual path that no call of the history has registered does
    not resolve: [Get] and [GetUrl] return the error
    ["File Not Found: "] followed by the path, and leave the registry
    as it is. *)
Theorem Get_never_registered b ops p fuel fs :
  (∀ o, o ∈ ops → ¬ registers o p) →
  let f := run ops (NewAssets b) in
  Get (S fuel) fs p f = (Fail (Err ("File Not Found: " +:+ p)), f) ∧
  GetUrl (S fuel) fs p f = (Fail (Err ("File Not Found: " +:+ p)), f).
Proof.
  intros Hp f.
  assert (entries f !! p = None) as Hnone.
  { subst f. by rewrite run_entries_other. }
  assert (Get (S fuel) fs p f = (Fail (Err ("File Not Found: " +:+ p)), f)) as HG.
  { simpl. unfold Get_with, Get_until_publish. by rewrite Hnone. }
  split; [done|]. unfold GetUrl, GetUrl_with. by rewrite HG.
Qed.

End Resolution.

Lemma Get_never_registered_witness :
  Get (lib := demo_lib) 3 demo_fs "/css/print.css"
    (run (demo_registration ++ [OpGet 2 demo_fs "/css/style.css"])
       (NewAssets "/a/")) =
  (Fail (Err "File Not Found: /css/print.css"),
   run (demo_registration ++ [OpGet 2 demo_fs "/css/style.css"])
     (NewAssets "/a/")).
Proof.
  apply (Get_never_registered (lib := demo_lib) "/a/"
           (demo_registration ++ [OpGet 2 demo_fs "/css/style.css"])
           "/css/print.css" 2 demo_fs).
  intros o Ho.
  repeat (apply elem_of_cons in Ho as [-> | Ho]; [simpl; congruence|]).
  by apply elem_of_nil in Ho.
Defined.

(** ** Further properties: from registration to content *)

Section Pipeline.
Context {lib : GoLib}.

Lemma run_preprocessors_pure get ps p c f r :
  pure_chain ps p c = Some r → run_preprocessors get ps p c f = (r, f).
Proof.
  revert c. induction ps as [|[| |g] rest IH]; intros c; simpl; try done.
  - by intros [= <-].
  - destruct (g p c) as [c'|e]; [apply IH | by intros [= <-]].
Qed.

Lemma insert_last {A} (l : list A) (x y : A) :
  <[List.length l := y]> (l ++ [x])%list = (l ++ [y])%list.
Proof.
  rewrite insert_app_r_alt by done. by rewrite Nat.sub_diag.
Qed.

(** What [Get] does first with a path that [AddFile] has just
    registered: it finds the new entry, unset, and reads its file. *)
Lemma Get_after_AddFile get fs file p f :
  Get_with get fs p (AddFile file p f) =
  match fs file with
  | inr e => (Fail (Err e), AddFile file p f)
  | inl raw =>
      let l := List.length (store f) in
      let f1 := update_file l (set_ContentType (content_type file raw))
                  (AddFile file p f) in
      match run_preprocessors get (default [] (preprocessors f !! Ext file))
              p (Some raw) f1 with
      | (Ok fileContent, f2) => (Ok l, finish l fileContent f2)
      | (Fail e, f2) => (Fail e, f2)
      end
  end.
Proof.
  unfold Get_with, Get_until_publish.
  cbn [entries store AddFile]. rewrite lookup_insert_eq.
  rewrite list_lookup_middle by done. cbn [Content path].
  destruct (fs file) as [raw|e]; [|done]. cbv zeta.
  destruct (update_file_same_registration (List.length (store f))
              (set_ContentType (content_type file raw)) (AddFile file p f))
    as (_ & _ & Hpre & _).
  unfold content_type in *. rewrite Hpre. cbn [preprocessors AddFile].
  by destruct (run_preprocessors _ _ _ _ _) as [[fc|e] f2].
Qed.

Lemma AddFile_typed file p f ct :
  update_file (List.length (store f)) (set_ContentType ct) (AddFile file p f) =
  mkAssets (wrap (version f + 1)) (baseURL f) (preprocessors f)
    (<[p := List.length (store f)]> (entries f)) (byChecksum f)
    (templateCache f) (templateCacheVersion f) (templateFuncMap f)
    (store f ++ [mkFile file None None None "" ct])%list.
Proof.
  erewrite update_file_Some;
    [|cbn [store AddFile]; by apply list_lookup_middle].
  unfold with_store. cbn. by rewrite insert_last.
Qed.

(** X2.  Registration followed by a resolution that fails.  If the
    file cannot be read, [Get] returns the error of the read and the
    registry is as [AddFile] left it.  If a preprocessor (of a chain
    that does not call the registry) fails, [Get] returns its failure;
    the content type of the entry has been assigned, but nothing is
    entered in [byChecksum] and the content stays unset, so that the
    next [Get] starts again from the file. *)
Theorem AddFile_then_Get_fails fuel fs file p f :
  (∀ e, fs file = inr e →
        Get (S fuel) fs p (AddFile file p f) = (Fail (Err e), AddFile file p f)) ∧
  (∀ raw e,
     fs file = inl raw →
     pure_chain (default [] (preprocessors f !! Ext file)) p (Some raw)
       = Some (Fail e) →
     Get (S fuel) fs p (AddFile file p f) =
     (Fail e,
      mkAssets (wrap (version f + 1)) (baseURL f) (preprocessors f)
        (<[p := List.length (store f)]> (entries f)) (byChecksum f)
        (templateCache f) (templateCacheVersion f) (templateFuncMap f)
        (store f ++ [mkFile file None None None "" (content_type file raw)])%list)).
Proof.
  split.
  - intros e He. simpl. by rewrite Get_after_AddFile, He.
  - intros raw e Hraw Hchain. simpl. rewrite Get_after_AddFile, Hraw.
    cbv zeta. rewrite (run_preprocessors_pure _ _ _ _ _ _ Hchain).
    by rewrite AddFile_typed.
Qed.

(** X3.  Registration followed by a resolution that succeeds, for a
    chain of preprocessors that does not call the registry (the empty
    chain when the extension has none).  [Get] returns the new entry;
    its content is the output of the chain on the bytes of the file,
    its compressed content and fingerprint are those of that output,
    its content type comes from the extension of the file or else from
    the bytes read; the fingerprint is entered in [byChecksum]; nothing
    else changes. *)
Theorem AddFile_then_Get fuel fs file p f raw fc :
  fs file = inl raw →
  pure_chain (default [] (preprocessors f !! Ext file)) p (Some raw)
    = Some (Ok fc) →
  let l := List.length (store f) in
  let h := EncodeToString (sha1_Sum (bytes_of fc)) in
  Get (S fuel) fs p (AddFile file p f) =
  (Ok l,
   mkAssets (wrap (version f + 1)) (baseURL f) (preprocessors f)
     (<[p := l]> (entries f)) (<[h := l]> (byChecksum f))
     (templateCache f) (templateCacheVersion f) (templateFuncMap f)
     (store f ++ [mkFile file fc (Some (gzip_Write (bytes_of fc)))
                    (Some (sha1_Sum (bytes_of fc))) h
                    (content_type file raw)])%list).
Proof.
  intros Hraw Hchain l h. subst l h. simpl.
  rewrite Get_after_AddFile, Hraw. cbv zeta.
  rewrite (run_preprocessors_pure _ _ _ _ _ _ Hchain).
  rewrite AddFile_typed.
  erewrite finish_Some; [|cbn [store]; by apply list_lookup_middle].
  cbn. by rewrite insert_last.
Qed.

End Pipeline.

Lemma AddFile_then_Get_fails_witness :
  Get (lib := demo_lib) 1 demo_fs "/missing.png"
    (AddFile "static/missing.png" "/missing.png" demo_registry) =
  (Fail (Err "open static/missing.png: no such file or directory"),
   AddFile "static/missing.png" "/missing.png" demo_registry).
Proof.
  apply (proj1 (AddFile_then_Get_fails (lib := demo_lib) 0 demo_fs
                  "static/missing.png" "/missing.png" demo_registry)).
  reflexivity.
Defined.

Lemma AddFile_then_Get_witness :
  (Get (lib := demo_lib) 1 demo_fs "/logo"
     (AddFile "static/css/logo.png" "/logo" demo_registry)).1 = Ok 4%nat.
Proof.
  rewrite (AddFile_then_Get (lib := demo_lib) 0 demo_fs "static/css/logo.png"
             "/logo" demo_registry "PNG" (Some "PNG")); reflexivity.
Defined.

(** ** Further properties: public URLs *)

Section PublicURL.
Context {lib : GoLib}.

Lemma publishing_type l ct f : publishing f (update_file l (set_ContentType ct) f).
Proof.
  intros Hf l' file'. rewrite update_file_lookup, update_file_byChecksum.
  case_decide; [|apply Hf].
  intros (file & Hl' & ->)%fmap_Some. apply (Hf l' file Hl').
Qed.

Lemma finish_published l fc f : publishing f (finish l fc f).
Proof.
  intros Hf.
  destruct (store f !! l) as [file|] eqn:H;
    [|by rewrite (finish_None l fc f H)].
  rewrite (finish_Some l fc f file H). intros l' file'. simpl.
  rewrite list_lookup_insert. case_decide as Hd.
  - intros [= <-] _. simpl. rewrite lookup_insert_eq. by eexists.
  - intros Hl' Hz. rewrite lookup_insert. case_decide; [by eexists|].
    by apply (Hf l' file').
Qed.

Lemma AddFile_published file p f : publishing f (AddFile file p f).
Proof.
  intros Hf l file' [Hl|[_ Hl]]%lookup_app_Some Hz; [by apply (Hf l file')|].
  by apply list_lookup_singleton_Some in Hl as [_ <-].
Qed.

Lemma run_published_keys ops f : published f → published (run ops f).
Proof.
  apply (run_preserves publishing); unfold publishing; try done.
  - eauto.
  - apply publishing_type.
  - intros l fc f0 f2 file0 _ _ H02 H0. by apply finish_published, H02.
  - apply AddFile_published.
  - intros f0. destruct (reset_cache_fields f0) as (Hs & Hb & _).
    unfold published. by rewrite Hs, Hb.
Qed.

Lemma NewAssets_published b : published (NewAssets b).
Proof. intros l file. simpl. by rewrite lookup_nil. Qed.

Lemma str_drop_app a b : str_drop (String.length a) (a +:+ b) = b.
Proof. induction a as [|c a IH]; [done|]. simpl. apply IH. Qed.

Lemma len_app a b : len (a +:+ b) = len a + len b.
Proof.
  unfold len. induction a as [|c a IH].
  - change ("" +:+ b) with b. simpl String.length. lia.
  - change (String c a +:+ b) with (String c (a +:+ b)).
    simpl String.length. lia.
Qed.

Lemma GetUrl_Ok fuel fs p f url f' :
  GetUrl fuel fs p f = (Ok url, f') →
  ∃ l file, Get fuel fs p f = (Ok l, f') ∧ store f' !! l = Some file ∧
            url = baseURL f' +:+ HashString file.
Proof.
  unfold GetUrl, GetUrl_with.
  destruct (Get fuel fs p f) as [[l|e] f1]; [|done].
  destruct (store f1 !! l) as [file|] eqn:Hl; [|done].
  intros [= <- <-]. by exists l, file.
Qed.

(** The entry a successful [Get] returns has been through lines 169 to
    186. *)
Lemma Get_Ok_digested fuel fs p f l f' :
  consistent f → Get fuel fs p f = (Ok l, f') →
  ∃ file, store f' !! l = Some file ∧ digested file.
Proof.
  intros Hf HG. destruct fuel as [|n]; [done|].
  simpl in HG. unfold Get_with in HG.
  destruct (Get_until_publish (Get n fs) fs p f) as [[[l0 [fc|]]|e] f1] eqn:HP;
    [| |done].
  - destruct (Get_publishes_first n fs p f l0 fc f1 HP)
      as (file1 & H1 & _ & Hz & Hh & Hs & _).
    injection HG as <- <-.
    exists (set_Content fc file1). split.
    + erewrite update_file_Some by done. simpl.
      apply list_lookup_insert_eq. by eapply lookup_lt_Some.
    + by destruct file1.
  - injection HG as <- <-. unfold Get_until_publish in HP.
    destruct (entries f !! p) as [l1|]; [|done].
    destruct (store f !! l1) as [file|] eqn:H1; [|done].
    destruct (Content file) as [c|] eqn:Hc.
    + injection HP as <- <-. exists file. split; [done|].
      destruct Hf as (Hs & _). destruct (Hs l1 file H1) as [[? _]|?]; [congruence|done].
    + destruct (fs (path file)); [|done].
      by destruct (run_preprocessors _ _ _ _ _) as [[fc|e] f2].
Qed.

(** X4.  The URL that [GetUrl] returns is [baseURL] followed by the
    fingerprint of the entry, and [Serve] answers it: with status 200
    when no status was written before, never with the 404 response. *)
Theorem GetUrl_is_served b ops fuel fs p url f' w r now :
  let f := run ops (NewAssets b) in
  GetUrl fuel fs p f = (Ok url, f') →
  w_status w = None →
  ∃ l file w',
    Get fuel fs p f = (Ok l, f') ∧ store f' !! l = Some file ∧
    url = b +:+ HashString file ∧
    Serve url w r now f' = Ok w' ∧ w_status w' = Some 200.
Proof.
  intros f HU Hw. destruct (GetUrl_Ok fuel fs p f url f' HU) as (l & file & HG & Hl & ->).
  assert (f' = run (ops ++ [OpGet fuel fs p]) (NewAssets b)) as Hf'.
  { rewrite run_snoc. simpl. fold f. by rewrite HG. }
  assert (baseURL f' = b) as Hb by (rewrite Hf'; apply run_baseURL).
  rewrite Hb. exists l, file.
  destruct (Get_Ok_digested fuel fs p f l f'
              (run_consistent ops _ (NewAssets_consistent b)) HG)
    as (file0 & Hl0 & Hz & _).
  assert (file0 = file) as -> by congruence.
  destruct (run_published_keys (ops ++ [OpGet fuel fs p]) _
              (NewAssets_published b) l file) as [l' Hl'].
  { by rewrite <- Hf'. }
  { by rewrite Hz. }
  rewrite <- Hf' in Hl'.
  destruct (run_consistent (ops ++ [OpGet fuel fs p]) _ (NewAssets_consistent b))
    as (_ & Hpub & _).
  rewrite <- Hf' in Hpub. destruct (Hpub _ _ Hl') as (file' & Hfile' & _).
  unfold Serve. rewrite Hb, len_app, str_drop_app, Hl', Hfile'.
  rewrite decide_False by (unfold len; lia).
  destruct (accepts_gzip r); eexists; split_and!; try done;
    unfold Write, WriteHeader; simpl; by rewrite Hw.
Qed.

(** X5.  The public URL depends on [baseURL] and on the bytes of the
    content only: it is [baseURL] followed by the hex SHA-1 of the
    content, so two paths whose contents are the same bytes have the
    same URL, whatever their files and extensions. *)
Theorem same_content_same_url fuel fs fuel' fs' p1 p2 f l1 f1 file1 l2 f2 file2 :
  consistent f →
  Get fuel fs p1 f = (Ok l1, f1) → store f1 !! l1 = Some file1 →
  Get fuel' fs' p2 f1 = (Ok l2, f2) → store f2 !! l2 = Some file2 →
  bytes_of (Content file1) = bytes_of (Content file2) →
  GetUrl fuel fs p1 f =
    (Ok (baseURL f +:+ EncodeToString (sha1_Sum (bytes_of (Content file1)))), f1) ∧
  GetUrl fuel' fs' p2 f1 =
    (Ok (baseURL f +:+ EncodeToString (sha1_Sum (bytes_of (Content file1)))), f2).
Proof.
  intros Hf HG1 Hl1 HG2 Hl2 Hbytes.
  assert (consistent f1) as Hf1.
  { change f1 with (Ok l1, f1).2. rewrite <- HG1.
    apply (Get_preserves consistency); unfold consistency; eauto.
    - apply consistency_type.
    - intros l0 fc f0 f3 file0 _ _ H02 H0. by apply finish_consistent, H02. }
  destruct (Get_Ok_digested _ _ _ _ _ _ Hf HG1) as (file1' & Hl1' & _ & _ & Hh1).
  destruct (Get_Ok_digested _ _ _ _ _ _ Hf1 HG2) as (file2' & Hl2' & _ & _ & Hh2).
  assert (file1' = file1) as -> by congruence.
  assert (file2' = file2) as -> by congruence.
  pose proof (Get_same_registration fuel fs p1 f) as (_ & Hb1 & _).
  pose proof (Get_same_registration fuel' fs' p2 f1) as (_ & Hb2 & _).
  rewrite HG1 in Hb1. rewrite HG2 in Hb2. simpl in Hb1, Hb2.
  unfold GetUrl, GetUrl_with. rewrite HG1, HG2, Hl1, Hl2.
  by rewrite Hh1, Hh2, Hb2, Hb1, Hbytes.
Qed.

End PublicURL.

Lemma GetUrl_is_served_witness :
  ∃ l file w',
    Get (lib := demo_lib) 2 demo_fs "/css/style.css" demo_registry =
      (Ok l, (GetUrl 2 demo_fs "/css/style.css" demo_registry).2) ∧
    store (GetUrl 2 demo_fs "/css/style.css" demo_registry).2 !! l = Some file ∧
    "/a/7d293035653437342f612f286c72753a646e756f72676b6361627b61" =
      "/a/" +:+ HashString file ∧
    Serve "/a/7d293035653437342f612f286c72753a646e756f72676b6361627b61"
      new_response None 0 (GetUrl 2 demo_fs "/css/style.css" demo_registry).2
      = Ok w' ∧
    w_status w' = Some 200.
Proof.
  apply (GetUrl_is_served (lib := demo_lib) "/a/" demo_registration 2 demo_fs
           "/css/style.css").
  - apply pair_fst_eq. vm_compute. reflexivity.
  - reflexivity.
Defined.

Lemma same_content_same_url_witness :
  let f := AddFile "static/css/logo.png" "/copy.bin" demo_registry in
  (GetUrl (lib := demo_lib) 1 demo_fs "/css/logo.png" f).1 = Ok "/a/474e50" ∧
  (GetUrl (lib := demo_lib) 1 demo_fs "/copy.bin"
     (Get 1 demo_fs "/css/logo.png" f).2).1 = Ok "/a/474e50".
Proof.
  intros f.
  destruct (same_content_same_url (lib := demo_lib) 1 demo_fs 1 demo_fs
              "/css/logo.png" "/copy.bin" f
              1%nat (Get 1 demo_fs "/css/logo.png" f).2
              (mkFile "static/css/logo.png" (Some "PNG") (Some "gz:PNG")
                 (Some "GNP") "474e50" "image/png")
              4%nat
              (Get 1 demo_fs "/copy.bin" (Get 1 demo_fs "/css/logo.png" f).2).2
              (mkFile "static/css/logo.png" (Some "PNG") (Some "gz:PNG")
                 (Some "GNP") "474e50" "image/png")) as [H1 H2].
  - apply run_consistent, NewAssets_consistent ||
    apply (AddFile_consistent _ _ _),
      (run_consistent demo_registration _ (NewAssets_consistent "/a/")).
  - apply pair_fst_eq. vm_compute. reflexivity.
  - vm_compute. reflexivity.
  - apply pair_fst_eq. vm_compute. reflexivity.
  - vm_compute. reflexivity.
  - reflexivity.
  - rewrite H1, H2. split; vm_compute; reflexivity.
Defined.

(** ** Further properties: what stays served *)

Section Served.
Context {lib : GoLib}.

Lemma AddDirectory_store_old walk err p f l :
  is_Some (store f !! l) →
  store (AddDirectory walk err p f).2 !! l = store f !! l.
Proof.
  unfold AddDirectory. cbn [snd]. revert f.
  induction walk as [|[a rel] rest IH]; intros f Hl; simpl; [done|].
  rewrite IH; simpl.
  - apply lookup_app_l. by apply lookup_lt_is_Some.
  - apply lookup_lt_is_Some. rewrite length_app.
    apply lookup_lt_is_Some in Hl. lia.
Qed.

(** A call that does not go through [Get] leaves the files there are. *)
Lemma step_store_old o f l :
  calls_Get o = false → is_Some (store f !! l) →
  store (step o f) !! l = store f !! l.
Proof.
  destruct o as [file q | walk err p | | | | | | | | |]; simpl; try done.
  - intros _ Hl. apply lookup_app_l. by apply lookup_lt_is_Some.
  - intros _. apply (AddDirectory_store_old walk err p f l).
Qed.

Lemma step_baseURL o f : baseURL (step o f) = baseURL f.
Proof. apply (run_baseURL [o] f). Qed.

Lemma grows_AddFile file p f : grows f (AddFile file p f).
Proof.
  split; [|done]. intros l Hl. simpl.
  rewrite lookup_app_l; [done|]. by apply lookup_lt_is_Some.
Qed.

Lemma run_grows ops f : grows f (run ops f).
Proof.
  apply (run_preserves grows grows_refl grows_trans grows_type grows_finish
           grows_AddFile); try done.
  intros f0. destruct (reset_cache_fields f0) as (Hs & Hb & _).
  unfold grows. by rewrite Hs, Hb.
Qed.

(** What [Serve] answers when the fingerprint is in the table of a
    consistent registry. *)
Lemma Serve_found url w r now f :
  consistent f → w_status w = None → len (baseURL f) ≤ len url →
  is_Some (byChecksum f !! str_drop (String.length (baseURL f)) url) →
  ∃ w', Serve url w r now f = Ok w' ∧ w_status w' = Some 200.
Proof.
  intros (_ & Hb & _) Hw Hlen [l Hl].
  destruct (Hb _ _ Hl) as (file & Hfile & _).
  unfold Serve. rewrite decide_False by lia. rewrite Hl, Hfile.
  destruct (accepts_gzip r); eexists; split; try done;
    unfold Write, WriteHeader; simpl; by rewrite Hw.
Qed.

Lemma Serve_200 url w r now f w' :
  Serve url w r now f = Ok w' → w_status w = None → w_status w' = Some 200 →
  len (baseURL f) ≤ len url ∧
  is_Some (byChecksum f !! str_drop (String.length (baseURL f)) url).
Proof.
  unfold Serve. intros HS Hw H200.
  case_decide as Hlen.
  { injection HS as <-. rewrite httpError_response in H200 by done. done. }
  split; [lia|].
  destruct (byChecksum f !! _) as [l|]; [by eexists|].
  injection HS as <-. rewrite httpError_response in H200 by done. done.
Qed.

(** X6.  Registration does not touch what is published: after
    [AddFile], [AddDirectory], [AddPreprocessor], [ClearPreprocessors]
    or [SetTemplateFunc], [Serve] answers every request as before.  In
    particular the fingerprints of a path that is registered again are
    still served with their old content. *)
Theorem Serve_unchanged_by_registration o f url w r now :
  consistent f → calls_Get o = false →
  Serve url w r now (step o f) = Serve url w r now f.
Proof.
  intros (_ & Hb & _) Ho. unfold Serve.
  rewrite step_baseURL, (step_byChecksum o f Ho).
  case_decide; [done|].
  destruct (byChecksum f !! _) as [l|] eqn:Hl; [|done].
  destruct (Hb _ _ Hl) as (file & Hfile & _).
  rewrite (step_store_old o f l Ho) by (by eexists). done.
Qed.

(** X7.  What is published stays published: a URL that [Serve] has
    answered with status 200 is answered with status 200 after any
    further calls; no call removes a fingerprint. *)
Theorem Serve_stays_served ops f url w r now w0 :
  consistent f → w_status w = None →
  Serve url w r now f = Ok w0 → w_status w0 = Some 200 →
  ∃ w', Serve url w r now (run ops f) = Ok w' ∧ w_status w' = Some 200.
Proof.
  intros Hf Hw HS H200.
  destruct (Serve_200 url w r now f w0 HS Hw H200) as [Hlen Hkey].
  apply Serve_found; [by apply run_consistent | done | |];
    rewrite run_baseURL; [done|].
  by apply (run_grows ops f).
Qed.

End Served.

Lemma demo_resolved_consistent :
  consistent (lib := demo_lib)
    (step (OpGet 1 demo_fs "/css/logo.png") demo_registry).
Proof.
  unfold demo_registry. rewrite <- run_snoc.
  apply run_consistent, NewAssets_consistent.
Qed.

Lemma Serve_unchanged_by_registration_witness :
  Serve (lib := demo_lib) "/a/474e50" new_response None 0
    (step (OpAddFile "static/other.png" "/css/logo.png")
       (step (OpGet 1 demo_fs "/css/logo.png") demo_registry)) =
  Serve "/a/474e50" new_response None 0
    (step (OpGet 1 demo_fs "/css/logo.png") demo_registry).
Proof.
  apply (Serve_unchanged_by_registration (lib := demo_lib)
           (OpAddFile "static/other.png" "/css/logo.png")
           (step (OpGet 1 demo_fs "/css/logo.png") demo_registry)
           "/a/474e50" new_response None 0 demo_resolved_consistent).
  reflexivity.
Defined.

Lemma Serve_stays_served_witness :
  ∃ w', Serve (lib := demo_lib) "/a/474e50" new_response None 0
          (run [OpAddFile "static/other.png" "/css/logo.png";
                OpGet 1 demo_fs "/css/logo.png"]
             (step (OpGet 1 demo_fs "/css/logo.png") demo_registry)) = Ok w' ∧
        w_status w' = Some 200.
Proof.
  apply (Serve_stays_served (lib := demo_lib)
           [OpAddFile "static/other.png" "/css/logo.png";
            OpGet 1 demo_fs "/css/logo.png"]
           (step (OpGet 1 demo_fs "/css/logo.png") demo_registry)
           "/a/474e50" new_response None 0
           (mkResponse
              (<["Expires" := "Sat, 31 Oct 2027 00:00:00 GMT"]>
                 {["Content-Type" := "image/png"]})
              (Some 200) "PNG")
           demo_resolved_consistent eq_refl).
  - vm_compute. reflexivity.
  - reflexivity.
Defined.

(** ** Further properties: the life of a cached template *)

Section CachedTemplates.
Context {lib : GoLib}.

Lemma keeps_cache_refl f : keeps_cache f f.
Proof. by split. Qed.

Lemma keeps_cache_trans f g h :
  keeps_cache f g → keeps_cache g h → keeps_cache f h.
Proof.
  intros [Hv1 H1] [Hv2 H2]. split; [congruence|]. intros Hs.
  destruct (H1 Hs) as [Hs1 Hc1]. destruct H2 as [Hs2 Hc2]; [congruence|].
  split; [done|]. eauto.
Qed.

Lemma keeps_cache_same f f' : same_registration f f' → keeps_cache f f'.
Proof.
  intros (Hv & _ & _ & _ & Hc & Hs & _). split; [done|].
  intros Hst. split; [congruence|]. intros k t. by rewrite Hc.
Qed.

Lemma keeps_cache_type l ct f :
  keeps_cache f (update_file l (set_ContentType ct) f).
Proof. apply keeps_cache_same, update_file_same_registration. Qed.

Lemma keeps_cache_finish l fc f0 f2 (file0 : File) :
  store f0 !! l = Some file0 → Content file0 = None →
  keeps_cache f0 f2 → keeps_cache f0 (finish l fc f2).
Proof.
  intros _ _ H. eapply keeps_cache_trans; [exact H|].
  apply keeps_cache_same, finish_same_registration.
Qed.

Lemma GetTemplate_keeps_cache fuel fs paths f :
  keeps_cache f (GetTemplate fuel fs paths f).2.
Proof.
  destruct (GetTemplate_cache fuel fs paths f) as (Hv & Hs & Hother).
  split; [done|]. intros Hst. split; [congruence|]. intros k t Hk.
  rewrite reset_cache_fresh in Hother by done.
  destruct (decide (k = Join paths "<")) as [->|Hne]; [|by rewrite Hother].
  unfold GetTemplate. cbv zeta. rewrite reset_cache_fresh by done.
  by rewrite Hk.
Qed.

(** A call that registers nothing keeps the cache. *)
Lemma keeps_cache_fields f f' :
  version f' = version f → templateCacheVersion f' = templateCacheVersion f →
  templateCache f' = templateCache f → keeps_cache f f'.
Proof.
  intros Hv Hs Hc. split; [done|]. intros Hst. split; [congruence|].
  intros k t. by rewrite Hc.
Qed.

(** A call that registers nothing keeps the cache. *)
Lemma step_keeps_cache o f : registrations o = 0%nat → keeps_cache f (step o f).
Proof.
  destruct o as [| walk err p | | | | | | | | |]; cbn [step registrations];
    intros Ho.
  - done.
  - destruct walk; [apply keeps_cache_refl | done].
  - by apply keeps_cache_fields.
  - by apply keeps_cache_fields.
  - by apply keeps_cache_fields.
  - apply (Get_preserves keeps_cache keeps_cache_refl keeps_cache_trans
             keeps_cache_type keeps_cache_finish).
  - apply (GetUrl_preserves keeps_cache keeps_cache_refl keeps_cache_trans
             keeps_cache_type keeps_cache_finish).
  - apply keeps_cache_refl.
  - apply GetTemplate_keeps_cache.
  - apply (template_asset_preserves keeps_cache keeps_cache_refl
             keeps_cache_trans keeps_cache_type keeps_cache_finish).
  - apply (template_assetinline_preserves keeps_cache keeps_cache_refl
             keeps_cache_trans keeps_cache_type keeps_cache_finish).
Qed.

Lemma run_keeps_cache ops f :
  Forall (λ o, registrations o = 0%nat) ops → keeps_cache f (run ops f).
Proof.
  intros Hops. revert f.
  induction Hops as [|o ops Ho _ IH]; intros f; [apply keeps_cache_refl|].
  simpl. eapply keeps_cache_trans; [by apply step_keeps_cache | apply IH].
Qed.

(** X8.  A template that [GetTemplate] has returned stays in the cache
    until a file is registered: after any calls that register nothing
    ([Get], [GetUrl], [Serve], [AddPreprocessor], [ClearPreprocessors],
    [SetTemplateFunc], other [GetTemplate]s), [GetTemplate] returns that
    same template, without compiling, for every path list that is
    joined to the same key, and leaves the registry as it is.  So a
    function set with [SetTemplateFunc] does not reach a template
    already compiled, and two path lists with the same key, such as
    ["a<b"] and ["a"; "b"], share one template. *)
Theorem GetTemplate_cached fuel fs paths f tmpl f' ops fuel' fs' paths' :
  GetTemplate fuel fs paths f = (Ok tmpl, f') →
  Forall (λ o, registrations o = 0%nat) ops →
  Join paths' "<" = Join paths "<" →
  GetTemplate fuel' fs' paths' (run ops f') = (Ok tmpl, run ops f').
Proof.
  intros HG Hops Hkey.
  destruct (GetTemplate_Ok_cached fuel fs paths f tmpl f' HG) as (_ & Hs & Hc).
  destruct (run_keeps_cache ops f' Hops) as [_ Hkeep].
  destruct (Hkeep Hs) as [Hs' Hc'].
  unfold GetTemplate. cbv zeta. rewrite reset_cache_fresh by done.
  by rewrite Hkey, (Hc' _ _ Hc).
Qed.

End CachedTemplates.

Lemma GetTemplate_cached_witness :
  ∃ tmpl,
    let f' := (GetTemplate (lib := demo_lib) 1 demo_fs ["/a.html"; "/b.html"]
                 demo_templates).2 in
    let ops := [OpSetTemplateFunc "now" (func_user 0); OpGet 1 demo_fs "/b.html"] in
    GetTemplate 0 demo_fs ["/a.html</b.html"] (run ops f') = (Ok tmpl, run ops f').
Proof.
  assert (is_Ok (GetTemplate (lib := demo_lib) 1 demo_fs ["/a.html"; "/b.html"]
                   demo_templates).1 = true) as [tmpl Hok]%is_Ok_true
    by (vm_compute; reflexivity).
  exists tmpl. cbv zeta.
  apply (GetTemplate_cached (lib := demo_lib) 1 demo_fs ["/a.html"; "/b.html"]
           demo_templates).
  - by apply pair_fst_eq.
  - by repeat constructor.
  - reflexivity.
Defined.

(** ** Further properties: rendering and compiling, the edges *)

Section Rendering.
Context {lib : GoLib}.

Lemma GetTemplate_unregistered fuel fs p rest f :
  p ≠ "" → entries f !! p = None →
  templateCache (reset_cache f) !! Join (p :: rest) "<" = None →
  GetTemplate (S fuel) fs (p :: rest) f =
    (Fail (Err ("File Not Found: " +:+ p)), reset_cache f).
Proof.
  intros Hp Hnone Hmiss. unfold GetTemplate. cbv zeta. rewrite Hmiss.
  cbn [compile_paths]. rewrite decide_False by done.
  destruct (reset_cache_fields f) as (_ & _ & He & _).
  cbn [Get]. unfold Get_with, Get_until_publish. by rewrite He, Hnone.
Qed.

(** X9.  How a failed rendering is reported.  When the first path of the
    list is not registered (and the list is not cached),
    [RenderNamedTemplate] returns the error ["File Not Found: "] with the
    path and writes it as a plain-text response with status 500; the
    template is not executed and nothing is cached under the key of the
    list.  When the execution of the template fails after it has
    written output, the error is returned and its text is appended to
    what was written, but the status already sent stays. *)
Theorem RenderNamedTemplate_reports {Data : Type}
  (ExecuteTemplate : Executor Data) fuel fs p rest name w (data : Data) f :
  (p ≠ "" → entries f !! p = None →
   templateCache (reset_cache f) !! Join (p :: rest) "<" = None →
   w_status w = None →
   RenderNamedTemplate ExecuteTemplate (S fuel) fs (p :: rest) name w data f =
     (Fail (Err ("File Not Found: " +:+ p)),
      mkResponse
        (<["Content-Type" := "text/plain; charset=utf-8"]> (w_header w))
        (Some 500) (w_body w +:+ ("File Not Found: " +:+ p) +:+ newline),
      reset_cache f) ∧
   templateCache (reset_cache f) !! Join (p :: rest) "<" = None) ∧
  (∀ tmpl f1 e w' f2 code,
     GetTemplate fuel fs (p :: rest) f = (Ok tmpl, f1) →
     ExecuteTemplate tmpl w name data f1 = (Some e, w', f2) →
     w_status w' = Some code →
     ∃ w'', RenderNamedTemplate ExecuteTemplate fuel fs (p :: rest) name w data f
              = (Fail (Err e), w'', f2) ∧
            w_status w'' = Some code ∧
            w_body w'' = w_body w' +:+ e +:+ newline).
Proof.
  split.
  - intros Hp Hnone Hmiss Hw. split; [|done].
    unfold RenderNamedTemplate.
    rewrite (GetTemplate_unregistered fuel fs p rest f Hp Hnone Hmiss).
    by rewrite httpError_response.
  - intros tmpl f1 e w' f2 code HG HE Hcode.
    unfold RenderNamedTemplate. rewrite HG, HE.
    eexists. split; [done|]. unfold httpError, Write, WriteHeader. simpl.
    by rewrite Hcode.
Qed.

Lemma compile_paths_skip_empty get paths tmpl f :
  compile_paths get (filter (λ p, p ≠ "") paths) tmpl f =
  compile_paths get paths tmpl f.
Proof.
  revert tmpl f. induction paths as [|p rest IH]; intros tmpl f; [done|].
  rewrite filter_cons. cbn [compile_paths].
  destruct (decide (p ≠ "")) as [Hp|Hp].
  - cbn [compile_paths]. rewrite !decide_False by done.
    destruct (get p f) as [[l|e] f1]; [|done].
    destruct (store f1 !! l) as [file|]; [|done].
    by destruct (Parse _ _ _).
  - apply dec_stable in Hp. by rewrite decide_True.
Qed.

(** X10.  Empty strings in the path list are skipped by the
    compilation: when neither list is cached, [GetTemplate] returns for
    a list the template it returns for the list without its empty
    strings.  The two lists are cached under different keys. *)
Theorem GetTemplate_skips_empty fuel fs paths f :
  templateCache (reset_cache f) !! Join paths "<" = None →
  templateCache (reset_cache f) !! Join (filter (λ p, p ≠ "") paths) "<" = None →
  (GetTemplate fuel fs paths f).1 =
  (GetTemplate fuel fs (filter (λ p, p ≠ "") paths) f).1.
Proof.
  intros H1 H2. unfold GetTemplate. cbv zeta.
  rewrite H1, H2, compile_paths_skip_empty.
  by destruct (compile_paths _ _ _ _) as [[t|e] f2].
Qed.

End Rendering.

Lemma RenderNamedTemplate_reports_witness :
  RenderNamedTemplate (lib := demo_lib) demo_execute 1 demo_fs
    ["/missing.html"; "/a.html"] "/a.html" new_response () demo_templates =
  (Fail (Err "File Not Found: /missing.html"),
   mkResponse {["Content-Type" := "text/plain; charset=utf-8"]} (Some 500)
     ("File Not Found: /missing.html" +:+ newline),
   reset_cache demo_templates).
Proof.
  apply (proj1 (RenderNamedTemplate_reports (lib := demo_lib) demo_execute 0
                  demo_fs "/missing.html" ["/a.html"] "/a.html" new_response ()
                  demo_templates)).
  - done.
  - vm_compute. reflexivity.
  - vm_compute. reflexivity.
  - reflexivity.
Defined.

Lemma GetTemplate_skips_empty_witness :
  (GetTemplate (lib := demo_lib) 1 demo_fs [""; "/a.html"; ""] demo_templates).1 =
  (GetTemplate (lib := demo_lib) 1 demo_fs
     (filter (λ p, p ≠ "") [""; "/a.html"; ""]) demo_templates).1.
Proof.
  apply (GetTemplate_skips_empty (lib := demo_lib)); vm_compute; reflexivity.
Defined.

(** ** Further properties: the reference rewriter *)

Section Rewriter.
Context {lib : GoLib}.

Lemma match_here_literal re s n :
  match_here re s = Some n → String.prefix (literal re) s = true.
Proof.
  destruct re; unfold match_here, literal;
    by destruct (String.prefix _ s).
Qed.

Lemma Contains_cons c s sub :
  Contains (String c s) sub = false → Contains s sub = false.
Proof. simpl. by intros [_ ?]%orb_false_elim. Qed.

Lemma Contains_prefix s sub :
  Contains s sub = false → String.prefix sub s = false.
Proof. destruct s; simpl; by intros [? _]%orb_false_elim. Qed.

Lemma segments_no_literal re skip s :
  Contains s (literal re) = false → matches (segments re skip s) = [].
Proof.
  revert skip. induction s as [|c s IH]; intros skip Hc; [done|].
  pose proof (Contains_cons _ _ _ Hc) as Hc'.
  cbn [segments]. destruct skip as [|k]; [|by apply IH].
  destruct (match_here re (String c s)) as [n|] eqn:Hm.
  - apply match_here_literal in Hm.
    by rewrite (Contains_prefix _ _ Hc) in Hm.
  - cbn [matches]. by apply IH.
Qed.

(** Without a match the text is put together again as it was, and the
    registry is not called. *)
Lemma replace_segments_no_match get p prefix postfix re s e f :
  matches (segments re 0 s) = [] →
  replace_segments get p prefix postfix (segments re 0 s) e f = (Ok s, e, f).
Proof.
  induction s as [|c s IH]; [done|]. cbn [segments].
  destruct (match_here re (String c s)) as [n|]; [done|].
  cbn [matches replace_segments]. intros H. by rewrite (IH H).
Qed.

Lemma replace_segments_literals get p prefix postfix segs e f :
  matches segs = [] →
  ∃ out, replace_segments get p prefix postfix segs e f = (Ok out, e, f).
Proof.
  induction segs as [|[c|m] segs IH]; [by eexists| |done].
  cbn [matches replace_segments]. intros H.
  destruct (IH H) as [out ->]. by eexists.
Qed.

(** A fatal failure at the first match ends the replacement. *)
Lemma replace_segments_first_fails get p prefix postfix segs m rest e f x e' f' :
  matches segs = m :: rest →
  replace_match get p prefix postfix m e f = (Fail x, e', f') →
  replace_segments get p prefix postfix segs e f = (Fail x, e', f').
Proof.
  intros Hm Hr. induction segs as [|[c|m0] segs IH]; [done| |].
  - cbn [matches] in Hm. cbn [replace_segments]. by rewrite (IH Hm).
  - cbn [matches] in Hm. injection Hm as -> _.
    cbn [replace_segments]. by rewrite Hr.
Qed.

(** The error of the only match is the error of the replacement. *)
Lemma replace_segments_only_match get p prefix postfix segs m e f r e1 f1 :
  matches segs = [m] →
  replace_match get p prefix postfix m e f = (Ok r, e1, f1) →
  ∃ out, replace_segments get p prefix postfix segs e f = (Ok out, e1, f1).
Proof.
  intros Hm Hr. induction segs as [|[c|m0] segs IH]; [done| |].
  - cbn [matches] in Hm. cbn [replace_segments].
    destruct (IH Hm) as [out ->]. by eexists.
  - cbn [matches] in Hm. injection Hm as -> Hm.
    cbn [replace_segments]. rewrite Hr.
    destruct (replace_segments_literals get p prefix postfix segs e1 f1 Hm)
      as [out ->].
    by eexists.
Qed.

Lemma replaceProcessor_no_match get p raw re prefix postfix f :
  raw ≠ "" → Contains raw (literal re) = false →
  replaceProcessor get p (Some raw) re prefix postfix f = (Ok (Some raw), f).
Proof.
  intros Hraw Hc. unfold replaceProcessor. cbn [bytes_of].
  rewrite replace_segments_no_match by by apply segments_no_literal.
  unfold appended. by rewrite decide_False.
Qed.

(** X11.  A style sheet without references is served as it is.  When
    the file is not empty and contains neither [url(] nor
    [sourceMappingURL=], [Get] under the two built-in rewriters stores
    the bytes read from the file as the content, digests and publishes
    them, and calls the registry for no other file: a single level of
    calls is enough. *)
Theorem Get_plain_style_sheet fuel fs p f l file raw :
  entries f !! p = Some l → store f !! l = Some file → Content file = None →
  fs (path file) = inl raw → raw ≠ "" →
  preprocessors f !! Ext (path file) =
    Some [AssetCssPreprocessor; AssetSourceMapPreprocessor] →
  Contains raw "url(" = false → Contains raw "sourceMappingURL=" = false →
  Get (S fuel) fs p f =
    (Ok l, finish l (Some raw)
             (update_file l (set_ContentType (content_type (path file) raw)) f)).
Proof.
  intros Hp Hl Hc Hfs Hraw Hpre Hurl Hmap. simpl.
  unfold Get_with, Get_until_publish. rewrite Hp, Hl, Hc, Hfs. cbv zeta.
  fold (content_type (path file) raw).
  destruct (update_file_same_registration l
              (set_ContentType (content_type (path file) raw)) f)
    as (_ & _ & -> & _).
  rewrite Hpre. unfold default.
  cbn [from_option id run_preprocessors run_preprocessor].
  rewrite (replaceProcessor_no_match _ _ raw cssUrlRegex) by done.
  by rewrite (replaceProcessor_no_match _ _ raw sourceMapRegex) by done.
Qed.

(** X12.  A style sheet that refers to itself is never resolved.  When
    the first reference of a style sheet, rooted, is the virtual path of
    the style sheet itself, every call of [Get] for it calls [Get] for it
    again before it assigns the content: no bound on the depth of the
    calls is enough.  [Get] keeps no record of the files it is
    resolving. *)
Theorem Get_self_reference fs p l pth raw ps m rest ref :
  fs pth = inl raw →
  matches (segments cssUrlRegex 0 raw) = m :: rest →
  str_slice (len "url(") (len m - len ")") m = Some ref →
  getRooted p (TrimSpace ref) = Ok p →
  ∀ fuel f file,
    entries f !! p = Some l → store f !! l = Some file →
    path file = pth → Content file = None →
    preprocessors f !! Ext pth = Some (AssetCssPreprocessor :: ps) →
    (Get fuel fs p f).1 = Fail OutOfFuel.
Proof.
  intros Hfs Hm Hs Hr. induction fuel as [|fuel IH]; [done|].
  intros f file Hp Hl Hpath Hc Hpre. simpl.
  unfold Get_with, Get_until_publish. rewrite Hp, Hl, Hc, Hpath, Hfs. cbv zeta.
  set (ct := if decide (TypeByExtension (Ext pth) = "")
             then DetectContentType raw else TypeByExtension (Ext pth)).
  destruct (update_file_same_registration l (set_ContentType ct) f)
    as (_ & _ & Hpre1 & Hent1 & _).
  rewrite Hpre1, Hpre. unfold default.
  cbn [from_option id run_preprocessors run_preprocessor].
  assert (store (update_file l (set_ContentType ct) f) !! l
          = Some (set_ContentType ct file)) as Hl1.
  { rewrite update_file_lookup, decide_True by done. by rewrite Hl. }
  pose proof (IH (update_file l (set_ContentType ct) f) (set_ContentType ct file))
    as IH1.
  rewrite Hent1, Hpre1 in IH1. specialize (IH1 Hp Hl1 Hpath Hc Hpre).
  destruct (Get fuel fs p (update_file l (set_ContentType ct) f))
    as [o f1] eqn:HG.
  simpl in IH1. subst o.
  unfold replaceProcessor. change (bytes_of (Some raw)) with raw.
  rewrite (replace_segments_first_fails (Get fuel fs) p "url(" ")" _ m rest None
             (update_file l (set_ContentType ct) f) OutOfFuel None f1 Hm).
  - done.
  - unfold replace_match. rewrite Hs, Hr. unfold GetUrl_with. by rewrite HG.
Qed.

(** X13.  A reference to a path that is not registered.  When the only
    reference of a style sheet, rooted, is a virtual path that is not
    registered, [Get] for the style sheet fails with ["File Not Found: "]
    and that path.  The content type has been assigned by then; the
    content stays unset and nothing is published, so the next call reads
    the file again. *)
Theorem Get_unresolved_reference fuel fs p f l file raw ps m ref q :
  entries f !! p = Some l → store f !! l = Some file → Content file = None →
  fs (path file) = inl raw →
  preprocessors f !! Ext (path file) = Some (AssetCssPreprocessor :: ps) →
  matches (segments cssUrlRegex 0 raw) = [m] →
  str_slice (len "url(") (len m - len ")") m = Some ref →
  getRooted p (TrimSpace ref) = Ok q →
  entries f !! q = None →
  let f' := update_file l (set_ContentType (content_type (path file) raw)) f in
  Get (S (S fuel)) fs p f = (Fail (Err ("File Not Found: " +:+ q)), f') ∧
  (Content <$> store f' !! l) = Some None ∧
  byChecksum f' = byChecksum f.
Proof.
  intros Hp Hl Hc Hfs Hpre Hm Hs Hr Hq f'. split_and!.
  - change (Get (S (S fuel)) fs p f)
      with (Get_with (Get (S fuel) fs) fs p f).
    unfold Get_with, Get_until_publish. rewrite Hp, Hl, Hc, Hfs. cbv zeta.
    fold (content_type (path file) raw). fold f'.
    destruct (update_file_same_registration l
                (set_ContentType (content_type (path file) raw)) f)
      as (_ & _ & Hpre1 & Hent1 & _).
    fold f' in Hpre1, Hent1.
    rewrite Hpre1, Hpre. unfold default.
    cbn [from_option id run_preprocessors run_preprocessor].
    unfold replaceProcessor. change (bytes_of (Some raw)) with raw.
    destruct (replace_segments_only_match (Get (S fuel) fs) p "url(" ")" _ m None
                f' m (Some ("File Not Found: " +:+ q)) f' Hm) as [out ->]; [|done].
    unfold replace_match. rewrite Hs, Hr. unfold GetUrl_with.
    cbn [Get]. unfold Get_with, Get_until_publish. by rewrite Hent1, Hq.
  - unfold f'. rewrite update_file_lookup, decide_True by done.
    rewrite Hl. simpl. by rewrite Hc.
  - apply update_file_byChecksum.
Qed.

End Rewriter.

Lemma Get_plain_style_sheet_witness :
  Get (lib := demo_lib) 1 demo_fs_rewritten "/css/empty.css" demo_registry =
    (Ok 2%nat,
     finish 2 (Some "b{}")
       (update_file 2
          (set_ContentType
             (content_type (lib := demo_lib)
                (path (mkFile "static/css/empty.css" None None None "" "")) "b{}"))
          demo_registry)).
Proof.
  apply (Get_plain_style_sheet (lib := demo_lib) 0 demo_fs_rewritten
           "/css/empty.css" demo_registry 2
           (mkFile "static/css/empty.css" None None None "" "") "b{}");
    try (vm_compute; reflexivity).
  discriminate.
Defined.

Lemma Get_self_reference_witness :
  (Get (lib := demo_lib) 3 demo_fs_cycle "/css/style.css" demo_registry).1
  = Fail OutOfFuel.
Proof.
  apply (Get_self_reference (lib := demo_lib) demo_fs_cycle "/css/style.css" 0
           "static/css/style.css" "@import url(style.css);"
           [AssetSourceMapPreprocessor] "url(style.css)" [] "style.css")
    with (file := mkFile "static/css/style.css" None None None "" "");
    vm_compute; reflexivity.
Defined.

Lemma Get_unresolved_reference_witness :
  (Get (lib := demo_lib) 2 demo_fs "/css/style.css"
     (AddFile "static/css/style.css" "/css/style.css" (NewAssets "/a/"))).1
  = Fail (Err "File Not Found: /css/logo.png").
Proof.
  refine (f_equal fst
            (proj1
               (Get_unresolved_reference (lib := demo_lib) 0 demo_fs
                  "/css/style.css"
                  (AddFile "static/css/style.css" "/css/style.css" (NewAssets "/a/"))
                  0 (mkFile "static/css/style.css" None None None "" "")
                  "a{background:url(./logo.png)}" [AssetSourceMapPreprocessor]
                  "url(./logo.png)" "./logo.png" "/css/logo.png"
                  _ _ _ _ _ _ _ _ _)));
    vm_compute; reflexivity.
Defined.

Section Rewritten.
Context {lib : GoLib}.

Lemma str_take_drop n s : str_take n s +:+ str_drop n s = s.
Proof.
  revert s. induction n as [|n IH]; intros [|c s]; try done.
  cbn [str_take str_drop]. change (String c ?a +:+ ?b) with (String c (a +:+ b)).
  by rewrite IH.
Qed.

Lemma match_here_positive re s n : match_here re s = Some n → ∃ k, n = S k.
Proof.
  destruct re; unfold match_here; destruct (String.prefix _ s); try done.
  - destruct (span not_rparen _); [done|].
    destruct (str_index0 _); [|done]. intros [= <-]. by eexists.
  - destruct (span non_space _); [done|]. intros [= <-]. by eexists.
Qed.

Lemma segments_lossless re skip s :
  rewritten (λ m, m) (segments re skip s) = str_drop skip s.
Proof.
  revert skip. induction s as [|c s IH]; intros skip; [by destruct skip|].
  cbn [segments]. destruct skip as [|k]; [|by rewrite IH].
  destruct (match_here re (String c s)) as [n|] eqn:Hm.
  - destruct (match_here_positive _ _ _ Hm) as [k ->].
    cbn [rewritten]. rewrite IH. cbn [str_take str_drop].
    replace (S k - 1)%nat with k by lia.
    change (String c ?a +:+ ?b) with (String c (a +:+ b)).
    by rewrite str_take_drop.
  - cbn [rewritten]. by rewrite IH.
Qed.

Lemma replace_segments_resolved fuel fs p prefix postfix segs
  (url : string → string) e f :
  (∀ m, m ∈ matches segs →
        ∃ ref q l file c,
          str_slice (len prefix) (len m - len postfix) m = Some ref ∧
          getRooted p (TrimSpace ref) = Ok q ∧
          entries f !! q = Some l ∧ store f !! l = Some file ∧
          Content file = Some c ∧ url m = baseURL f +:+ HashString file) →
  replace_segments (Get (S fuel) fs) p prefix postfix segs e f =
    (Ok (rewritten (λ m, prefix +:+ url m +:+ postfix) segs), e, f).
Proof.
  induction segs as [|[c|m] segs IH]; intros H; [done| |].
  - cbn [replace_segments rewritten]. by rewrite (IH H).
  - cbn [replace_segments rewritten].
    destruct (H m) as (ref & q & l & file & c & Hs & Hr & Hq & Hl & Hc & Hu);
      [by left|].
    rewrite (replace_match_resolved (Get (S fuel) fs) p prefix postfix m ref q
               (url m) e f f Hs Hr).
    + rewrite IH; [done|]. intros m' Hm'. apply H. by right.
    + unfold GetUrl_with.
      rewrite (Get_materialized fuel fs q f l file c Hq Hl Hc).
      by rewrite Hl, Hu.
Qed.

(** X14.  What the rewriter writes.  When every reference of a text,
    rooted, is a registered path whose content is set, [replaceProcessor]
    returns the text with every match replaced by the prefix, the URL of
    the referenced file ([baseURL] and its fingerprint) and the postfix,
    and leaves the registry as it is; the bytes between the matches are
    kept, since the text is got back by putting every match in its own
    place. *)
Theorem replaceProcessor_resolved fuel fs p raw re prefix postfix
  (url : string → string) f :
  (∀ m, m ∈ matches (segments re 0 raw) →
        ∃ ref q l file c,
          str_slice (len prefix) (len m - len postfix) m = Some ref ∧
          getRooted p (TrimSpace ref) = Ok q ∧
          entries f !! q = Some l ∧ store f !! l = Some file ∧
          Content file = Some c ∧ url m = baseURL f +:+ HashString file) →
  replaceProcessor (Get (S fuel) fs) p (Some raw) re prefix postfix f =
    (Ok (appended
           (rewritten (λ m, prefix +:+ url m +:+ postfix) (segments re 0 raw))),
     f) ∧
  rewritten (λ m, m) (segments re 0 raw) = raw.
Proof.
  intros H. split; [|apply segments_lossless].
  unfold replaceProcessor. change (bytes_of (Some raw)) with raw.
  by rewrite (replace_segments_resolved fuel fs p prefix postfix _ url None f H).
Qed.

End Rewritten.

Lemma replaceProcessor_resolved_witness :
  let f := (Get (lib := demo_lib) 1 demo_fs "/css/logo.png" demo_registry).2 in
  let raw := "a{background:url(./logo.png)}" in
  let url := λ _ : string, "/a/474e50" in
  replaceProcessor (Get 1 demo_fs) "/css/style.css" (Some raw) cssUrlRegex
    "url(" ")" f =
    (Ok (appended
           (rewritten (λ m, "url(" +:+ url m +:+ ")") (segments cssUrlRegex 0 raw))),
     f) ∧
  rewritten (λ m, m) (segments cssUrlRegex 0 raw) = raw.
Proof.
  cbv zeta.
  apply (replaceProcessor_resolved (lib := demo_lib) 0 demo_fs "/css/style.css"
           "a{background:url(./logo.png)}" cssUrlRegex "url(" ")"
           (λ _, "/a/474e50")).
  intros m Hm.
  change (matches (segments cssUrlRegex 0 "a{background:url(./logo.png)}"))
    with ["url(./logo.png)"] in Hm.
  apply list_elem_of_singleton in Hm. subst m.
  exists "./logo.png", "/css/logo.png", 1%nat,
    (mkFile "static/css/logo.png" (Some "PNG") (Some "gz:PNG") (Some "GNP")
       "474e50" "image/png"), "PNG".
  split_and!; vm_compute; reflexivity.
Defined.
